(** * Prokka module of MultiQC: a shallow embedding and its properties

    Source: [multiqc/modules/prokka/prokka.py], class [MultiqcModule]
    with the methods [__init__], [parse_prokka] and [prokka_barplot].

    Python text is modelled by [string]; a character is a code point in
    the range 0..255.  The module only runs under Python 3 (the keyword
    argument of [split(":", maxsplit=1)] is refused by Python 2), so the
    builtins below follow CPython 3. *)

From Stdlib Require Import ZArith String Ascii List Bool Lia.
From stdpp Require Import gmap strings list fin_maps.

Local Open Scope string_scope.
Local Open Scope Z_scope.

(** ** Python builtins used by the module *)

Module Py.

(** [str.isspace] on one character, for code points below 256:
    TAB..CR, FS..US, SPACE, NEL and NBSP. *)
Definition isspace (c : ascii) : bool :=
  let n := nat_of_ascii c in
  ((9 <=? n)%nat && (n <=? 13)%nat)
  || ((28 <=? n)%nat && (n <=? 32)%nat)
  || (n =? 133)%nat || (n =? 160)%nat.

(** [s.startswith(p)] *)
Fixpoint startswith (s p : string) {struct p} : bool :=
  match p, s with
  | EmptyString, _ => true
  | String c p', String c' s' => Ascii.eqb c' c && startswith s' p'
  | String _ _, EmptyString => false
  end.

(** [s.lstrip()] *)
Fixpoint lstrip (s : string) : string :=
  match s with
  | String c s' => if isspace c then lstrip s' else s
  | EmptyString => EmptyString
  end.

(** [s.rstrip()]: a character is dropped when it is white and nothing
    but white space follows it. *)
Fixpoint rstrip (s : string) : string :=
  match s with
  | String c s' =>
      match rstrip s' with
      | EmptyString => if isspace c then EmptyString else String c EmptyString
      | r => String c r
      end
  | EmptyString => EmptyString
  end.

(** [s.strip()] *)
Definition strip (s : string) : string := rstrip (lstrip s).

(** Put a character in front of the first piece of a split. *)
Definition cons_head (c : ascii) (l : list string) : list string :=
  match l with
  | w :: ws => String c w :: ws
  | [] => [String c EmptyString]
  end.

(** Whether the text is empty or begins with white space. *)
Definition starts_white (s : string) : bool :=
  match s with
  | EmptyString => true
  | String c _ => isspace c
  end.

(** [s.split()]: the maximal runs of characters that are not white. *)
Fixpoint split_ws (s : string) : list string :=
  match s with
  | EmptyString => []
  | String c s' =>
      if isspace c then split_ws s'
      else if starts_white s' then String c EmptyString :: split_ws s'
      else cons_head c (split_ws s')
  end.

(** [s.split(sep, maxsplit)] for a separator of one character;
    [maxsplit = None] is the default, no limit. *)
Fixpoint split (sep : ascii) (maxsplit : option nat) (s : string)
  : list string :=
  match s with
  | EmptyString => [EmptyString]
  | String c s' =>
      if Ascii.eqb c sep then
        match maxsplit with
        | Some O => [s]
        | Some (S n) => EmptyString :: split sep (Some n) s'
        | None => EmptyString :: split sep None s'
        end
      else cons_head c (split sep maxsplit s')
  end.

(** [sep.join(l)] *)
Definition join (sep : string) (l : list string) : string :=
  String.concat sep l.

(** [l[:n]] and [l[n:]] for [n >= 0] *)
Definition slice_to {A} (n : nat) (l : list A) : list A := take n l.
Definition slice_from {A} (n : nat) (l : list A) : list A := drop n l.

(** The value of a decimal digit. *)
Definition digit_val (c : ascii) : option Z :=
  let n := nat_of_ascii c in
  if (48 <=? n)%nat && (n <=? 57)%nat then Some (Z.of_nat n - 48) else None.

(** The digits of an integer literal: at least one digit, single
    underscores allowed between digits.  [need] says that a digit must come
    next; the result is the value and the number of digits read. *)
Fixpoint int_digits (need : bool) (acc : Z) (n : nat) (s : string)
  : option (Z * nat) :=
  match s with
  | EmptyString => if need then None else Some (acc, n)
  | String c s' =>
      match digit_val c with
      | Some d => int_digits false (10 * acc + d) (S n) s'
      | None =>
          if Ascii.eqb c "_" && negb need then int_digits true acc n s'
          else None
      end
  end.

(** The limit [sys.get_int_max_str_digits()]: with a limit [m > 0] a
    literal of more than [m] digits is refused; [0] switches the limit
    off.  (The interpreter takes 0 or a limit of at least 640; it starts
    with 4300.) *)
Definition within_limit (max_str_digits n : nat) : bool :=
  negb ((0 <? max_str_digits)%nat && (max_str_digits <? n)%nat).

(** The white space that [int] skips around a number.  It is not that of
    [str.isspace]: below 127 [int] goes by the C table of the interpreter,
    TAB..CR and SPACE; from 127 on it takes what [str.isspace] takes, NEL
    and NBSP.  The separators FS..US, which [strip] and [split] take for
    white space, make [int] raise. *)
Definition isspace_int (c : ascii) : bool :=
  let n := nat_of_ascii c in
  ((9 <=? n)%nat && (n <=? 13)%nat)
  || (n =? 32)%nat || (n =? 133)%nat || (n =? 160)%nat.

(** The text without the white space of [int] in front, and at its
    end. *)
Fixpoint int_lskip (s : string) : string :=
  match s with
  | String c s' => if isspace_int c then int_lskip s' else s
  | EmptyString => EmptyString
  end.

Fixpoint int_rskip (s : string) : string :=
  match s with
  | String c s' =>
      match int_rskip s' with
      | EmptyString =>
          if isspace_int c then EmptyString else String c EmptyString
      | r => String c r
      end
  | EmptyString => EmptyString
  end.

(** [int(s)] for a string [s]; [None] stands for [ValueError]. *)
Definition int (max_str_digits : nat) (s : string) : option Z :=
  let t := int_rskip (int_lskip s) in
  let '(neg, body) :=
    match t with
    | String c r =>
        if Ascii.eqb c "-" then (true, r)
        else if Ascii.eqb c "+" then (false, r)
        else (false, t)
    | EmptyString => (false, t)
    end in
  match int_digits true 0 0 body with
  | Some (v, n) =>
      if within_limit max_str_digits n
      then Some (if neg then - v else v)
      else None
  | None => None
  end.

(** [f.readline()] on the unread text of a file: the line with its
    terminator, and what is left; the empty string at the end of the file. *)
Fixpoint readline (buf : string) : string * string :=
  match buf with
  | EmptyString => (EmptyString, EmptyString)
  | String c rest =>
      if Ascii.eqb c "010" then (String c EmptyString, rest)
      else let '(l, r) := readline rest in (String c l, r)
  end.

(** [for line in f]: the lines that the repeated [readline] gives until
    the text is used up. *)
Fixpoint readlines (buf : string) : list string :=
  match buf with
  | EmptyString => []
  | String c rest =>
      if Ascii.eqb c "010" then String c EmptyString :: readlines rest
      else cons_head c (readlines rest)
  end.

End Py.

(** ** Data model *)

(** A value stored in a sample record: [organism] is text, every count is
    an integer. *)
Inductive value :=
| VStr (s : string)
| VInt (z : Z).

(** A [dict()] is a finite map.  [self.prokka] maps a sample name to the
    record of that sample, itself a [dict()] from field name to value. *)
Abbreviation record := (gmap string value).
Abbreviation table := (gmap string (gmap string value)).

(** An [OrderedDict()]: the items in the order of their first insertion. *)
Module OD.

Definition t (V : Type) := list (string * V).

Definition empty {V} : t V := [].

(** [d[k] = v]: a new key goes to the end, a known key keeps its place. *)
Fixpoint set {V} (k : string) (v : V) (d : t V) : t V :=
  match d with
  | [] => [(k, v)]
  | (k', v') :: d' =>
      if String.eqb k' k then (k', v) :: d' else (k', v') :: set k v d'
  end.

Definition keys {V} (d : t V) : list string := map fst d.

Fixpoint get {V} (k : string) (d : t V) : option V :=
  match d with
  | [] => None
  | (k', v') :: d' => if String.eqb k' k then Some v' else get k d'
  end.

End OD.

(** A dict display [{k1: v1, ...}] that the module only hands on: its
    items as written. *)
Definition attrs := list (string * value).

Inductive level := DEBUG | INFO.

(** One call of [log.debug] or [log.info]: the message and its
    arguments, which [%s] and [{}] in the message stand for. *)
Record log_record := LogRecord {
  lr_level : level;
  lr_msg : string;
  lr_args : list value
}.

(** The exceptions that the module raises or that its builtins raise. *)
Inductive exn := ValueError | IndexError | KeyError | UserWarning.

#[global] Instance exn_eq_dec : EqDecision exn.
Proof. solve_decision. Defined.

(** Calls into the host framework, with the arguments they receive.  The
    framework is not part of the module: a call is recorded, returns, and
    leaves the table as it is. *)
Inductive call :=
| write_data_file (data : table) (fn : string)
| general_stats_addcols (data : table) (headers : OD.t attrs)
| bargraph_plot (data : table) (cats : OD.t attrs) (pconfig : attrs).

(** The module object and what it has done so far. *)
Record state := State {
  prokka : table;
  intro : string;
  log : list log_record;
  calls : list call
}.

(** An open text file: [f['f'].name] and the text not yet read, as the
    text layer of Python hands it on (ends of line are [\n]). *)
Record file := File {
  name : string;
  contents : string
}.

(** ** Statements: state and exceptions

    A statement runs on the state of the module and either returns a value
    or raises; what it did to the state before raising stays done. *)

Inductive result (A : Type) :=
| Ok (a : A)
| Raise (e : exn).
Arguments Ok {A} a.
Arguments Raise {A} e.

Definition M (A : Type) : Type := state -> result A * state.

#[global] Instance M_ret : MRet M := fun A a st => (Ok a, st).

#[global] Instance M_bind : MBind M := fun A B k m st =>
  match m st with
  | (Ok a, st') => k a st'
  | (Raise e, st') => (Raise e, st')
  end.

Definition raise {A} (e : exn) : M A := fun st => (Raise e, st).

(** [try: m except e: h] *)
Definition try_except {A} (m : M A) (e : exn) (h : M A) : M A := fun st =>
  match m st with
  | (Raise e', st') => if decide (e' = e) then h st' else (Raise e', st')
  | r => r
  end.

(** [for x in l: body(x)] *)
Fixpoint for_each {A} (l : list A) (body : A -> M unit) : M unit :=
  match l with
  | [] => mret tt
  | x :: l' => body x ;; for_each l' body
  end.

(** [l[i]] *)
Definition getitem {A} (l : list A) (i : nat) : M A :=
  match l !! i with
  | Some x => mret x
  | None => raise IndexError
  end.

(** [a, b = l] *)
Definition unpack2 {A} (l : list A) : M (A * A) :=
  match l with
  | [a; b] => mret (a, b)
  | _ => raise ValueError
  end.

Definition get_prokka : M table := fun st => (Ok (prokka st), st).

Definition set_prokka (t : table) : M unit := fun st =>
  (Ok tt, State t (intro st) (log st) (calls st)).

(** [self.prokka[s_name] = r] *)
Definition setrecord (s_name : string) (r : record) : M unit :=
  t ← get_prokka; set_prokka (<[s_name := r]> t).

(** [self.prokka[s_name][k] = v] *)
Definition setfield (s_name k : string) (v : value) : M unit :=
  t ← get_prokka;
  match t !! s_name with
  | Some r => set_prokka (<[s_name := <[k := v]> r]> t)
  | None => raise KeyError
  end.

Definition emit (l : level) (msg : string) (args : list value) : M unit :=
  fun st =>
    (Ok tt, State (prokka st) (intro st)
                  (log st ++ [LogRecord l msg args]) (calls st)).

Definition log_debug := emit DEBUG.
Definition log_info := emit INFO.

Definition do_call (c : call) : M unit := fun st =>
  (Ok tt, State (prokka st) (intro st) (log st) (calls st ++ [c])).

Definition add_intro (html : string) : M unit := fun st =>
  (Ok tt, State (prokka st) (intro st ++ html) (log st) (calls st)).

(** ** The module *)

Section MultiqcModule.

(** [sys.get_int_max_str_digits()] of the interpreter. *)
Variable max_str_digits : nat.
(** [config.analysis_dir], rendered. *)
Variable analysis_dir : string.
(** The markup that [plots.bargraph.plot] returns. *)
Variable bargraph_html : table -> OD.t attrs -> attrs -> string.

(** [int(s)] as a statement. *)
Definition int (s : string) : M Z :=
  match Py.int max_str_digits s with
  | Some z => mret z
  | None => raise ValueError
  end.

(** The three lines read first, and the text left after them. *)
Definition read_head (f : file) : string * string * string * string :=
  let '(first_line, b1) := Py.readline (contents f) in
  let '(contigs_line, b2) := Py.readline b1 in
  let '(bases_line, b3) := Py.readline b2 in
  (first_line, contigs_line, bases_line, b3).

(** The test on the first three lines. *)
Definition recognized (first_line contigs_line bases_line : string) : bool :=
  forallb id [Py.startswith first_line "organism:";
              Py.startswith contigs_line "contigs:";
              Py.startswith bases_line "bases:"].

(** [" ".join(first_line.strip().split(":", maxsplit=1)[1].split()[:2])] *)
Definition organism_of (first_line : string) : M string :=
  after ← getitem (Py.split ":" (Some 1%nat) (Py.strip first_line)) 1;
  mret (Py.join " " (Py.slice_to 2 (Py.split_ws after))).

(** [" ".join(first_line.split()[3:])] *)
Definition s_name_of (first_line : string) : string :=
  Py.join " " (Py.slice_from 3 (Py.split_ws first_line)).

(** The body of the loop over the remaining lines. *)
Definition parse_line (s_name line : string) : M unit :=
  '(description, value) ← unpack2 (Py.split ":" None line);
  try_except
    (n ← int value; setfield s_name description (VInt n))
    ValueError
    (log_debug "Unable to parse line: '%s'" [VStr line]).

(** Lines 114 to 129: what follows the test on the first three lines. *)
Definition parse_body (f : file) (first_line contigs_line bases_line rest
  : string) : M unit :=
  log_debug "%s appears to be a prokka summary file." [VStr (name f)];;
  organism ← organism_of first_line;
  let s_name := s_name_of first_line in
  setrecord s_name ∅;;
  setfield s_name "organism" (VStr organism);;
  log_debug "Found sample name '%s' for organism '%s'"
            [VStr s_name; VStr organism];;
  c ← getitem (Py.split ":" None contigs_line) 1;
  contigs ← int c;
  setfield s_name "contigs" (VInt contigs);;
  b ← getitem (Py.split ":" None bases_line) 1;
  bases ← int b;
  setfield s_name "bases" (VInt bases);;
  for_each (Py.readlines rest) (parse_line s_name).

Definition parse_prokka (f : file) : M unit :=
  let '(first_line, contigs_line, bases_line, rest) := read_head f in
  if negb (recognized first_line contigs_line bases_line) then mret tt
  else parse_body f first_line contigs_line bases_line rest.

(** The local [keys] of [prokka_barplot], lines 136 to 144. *)
Definition barplot_keys : OD.t attrs :=
  let keys := OD.empty in
  let keys := OD.set "CDS" [("name", VStr "CDS")] keys in
  let keys := OD.set "rRNA" [("name", VStr "rRNA")] keys in
  let keys := OD.set "tRNA" [("name", VStr "tRNA")] keys in
  let keys := OD.set "tmRNA" [("name", VStr "tmRNA")] keys in
  let keys := OD.set "misc_RNA" [("name", VStr "misc RNA")] keys in
  let keys := OD.set "sig_peptide" [("name", VStr "Signaling peptides")] keys in
  keys.

Definition barplot_pconfig : attrs :=
  [("id", VStr "prokka_plot");
   ("title", VStr "Prokka");
   ("ylab", VStr "# Counts");
   ("cpswitch_counts_label", VStr "Features")].

Definition prokka_barplot : M string :=
  t ← get_prokka;
  do_call (bargraph_plot t barplot_keys barplot_pconfig);;
  mret (bargraph_html t barplot_keys barplot_pconfig).

(** The local [headers] of [__init__], lines 40 to 85. *)
Definition count_header (title description : string) : attrs :=
  [("title", VStr title);
   ("description", VStr description);
   ("min", VInt 0);
   ("format", VStr "{:i}%")].

Definition general_stats_headers : OD.t attrs :=
  let headers := OD.empty in
  let headers :=
    OD.set "organism"
      [("title", VStr "Organism"); ("description", VStr "Organism")]
      headers in
  let headers :=
    OD.set "bases" (count_header "Bases" "Number of bases") headers in
  let headers :=
    OD.set "CDS" (count_header "CDS" "Number of CDS") headers in
  let headers :=
    OD.set "tRNA" (count_header "tRNA" "Number of tRNA") headers in
  let headers :=
    OD.set "rRNA" (count_header "rRNA" "Number of rRNA") headers in
  let headers :=
    OD.set "tmRNA" (count_header "tmRNA" "Number of tmRNA") headers in
  let headers :=
    OD.set "sig_peptide"
      (count_header "sig_peptide" "Number of sig_peptide") headers in
  headers.

(** [__init__], after the initialiser of the base class; [files] is what
    [find_log_files] yields. *)
Definition init (files : list file) : M unit :=
  set_prokka ∅;;
  for_each files parse_prokka;;
  t ← get_prokka;
  (if (size t =? 0)%nat then
     log_debug "Could not find any Prokka data in {}" [VStr analysis_dir];;
     raise UserWarning
   else mret tt);;
  log_info "Found {} logs" [VInt (Z.of_nat (size t))];;
  do_call (write_data_file t "multiqc_prokka");;
  do_call (general_stats_addcols t general_stats_headers);;
  html ← prokka_barplot;
  add_intro html.

End MultiqcModule.

(** ** The specification's wording of the extraction *)

(** The text after the first [:] of a line. *)
Fixpoint after_first_colon (s : string) : string :=
  match s with
  | EmptyString => EmptyString
  | String c s' => if Ascii.eqb c ":" then s' else after_first_colon s'
  end.

(** The first two tokens of the text after the first [:], joined by one
    space. *)
Definition spec_organism (first_line : string) : string :=
  Py.join " " (take 2 (Py.split_ws (after_first_colon first_line))).

(** The tokens of the whole line from token 3 on, joined by one space. *)
Definition spec_sample_id (first_line : string) : string :=
  Py.join " " (drop 3 (Py.split_ws first_line)).

(** ** The parser seen from the record of the sample

    [parse_prokka] works on the whole table; the two functions below say
    what it does to the one record it fills, and which lines it logs.  They
    serve the proofs: [parse_body_view] shows that the parser does exactly
    this. *)

Definition unable (line : string) : log_record :=
  LogRecord DEBUG "Unable to parse line: '%s'" [VStr line].

(** The loop over the remaining lines. *)
Fixpoint scan_lines (max_str_digits : nat) (lines : list string) (r : record)
  : result unit * record * list log_record :=
  match lines with
  | [] => (Ok tt, r, [])
  | line :: lines' =>
      match Py.split ":" None line with
      | [description; value] =>
          match Py.int max_str_digits value with
          | Some n => scan_lines max_str_digits lines' (<[description := VInt n]> r)
          | None =>
              let '(res, r', lg) := scan_lines max_str_digits lines' r in
              (res, r', unable line :: lg)
          end
      | _ => (Raise ValueError, r, [])
      end
  end.

Definition header_log (f : file) (first_line : string) : list log_record :=
  [LogRecord DEBUG "%s appears to be a prokka summary file." [VStr (name f)];
   LogRecord DEBUG "Found sample name '%s' for organism '%s'"
     [VStr (spec_sample_id first_line); VStr (spec_organism first_line)]].

(** [line.split(":")[1]] turned into an integer, when there is one. *)
Definition count_of (max_str_digits : nat) (line : string) : option Z :=
  Py.split ":" None line !! 1%nat ≫= Py.int max_str_digits.

(** Lines 117 to 129. *)
Definition body_view (max_str_digits : nat)
  (first_line contigs_line bases_line rest : string)
  : result unit * record * list log_record :=
  let r1 : record := {["organism" := VStr (spec_organism first_line)]} in
  match count_of max_str_digits contigs_line with
  | None => (Raise ValueError, r1, [])
  | Some contigs =>
      let r2 := <["contigs" := VInt contigs]> r1 in
      match count_of max_str_digits bases_line with
      | None => (Raise ValueError, r2, [])
      | Some bases =>
          scan_lines max_str_digits (Py.readlines rest)
            (<["bases" := VInt bases]> r2)
      end
  end.

(** The state in which the record of [s_name] has become [r] and [lg] has
    been logged. *)
Definition filled (st : state) (s_name : string) (r : record)
  (lg : list log_record) : state :=
  State (<[s_name := r]> (prokka st)) (intro st) (log st ++ lg) (calls st).

(** Whether the first three lines of a file pass the test. *)
Definition passes_gate (f : file) : bool :=
  let '(first_line, contigs_line, bases_line, _) := read_head f in
  recognized first_line contigs_line bases_line.

(** A record with the three fields of the first three lines. *)
Definition complete (r : record) : Prop :=
  is_Some (r !! "organism") /\ is_Some (r !! "contigs") /\
  is_Some (r !! "bases").

(** The claim that a file is taken wholly or not at all: after
    [parse_prokka] the table is as before, or it is the table of before
    with one complete record put in. *)
Definition atomic_on (max_str_digits : nat) (f : file) (st : state) : Prop :=
  let st' := snd (parse_prokka max_str_digits f st) in
  prokka st' = prokka st \/
  exists s_name r, prokka st' = <[s_name := r]> (prokka st) /\ complete r.

(** The claim that every field but [organism] is an integer that is not
    negative. *)
Definition nonneg_counts (r : record) : Prop :=
  forall k v, r !! k = Some v -> k <> "organism" ->
  exists z, v = VInt z /\ 0 <= z.

(** A line whose count, the piece of index 1, has no minus sign in
    front. *)
Definition no_minus (line : string) : Prop :=
  forall t, Py.split ":" None line !! 1%nat = Some t ->
  Py.startswith (Py.strip t) "-" = false.

(** ** Sample reports *)

Definition nl : string := String "010" EmptyString.

(** The text of a file, from its lines. *)
Definition text (lines : list string) : string :=
  String.concat "" (map (fun l => l ++ nl) lines).

Definition fresh : state := State ∅ "" [] [].

Definition line_K12 : string :=
  "organism: Escherichia coli strain K12_sample1" ++ nl.

(** The record that the first three lines of the sample reports give. *)
Definition head_K12 : record :=
  <["bases" := VInt 4641652]>
    (<["contigs" := VInt 5]> {["organism" := VStr "Escherichia coli"]}).

(** The report of the specification. *)
Definition report_K12 : file :=
  File "K12.txt"
    (text ["organism: Escherichia coli strain K12_sample1";
           "contigs: 5"; "bases: 4641652"; "CDS:4289"; "rRNA:22"; "tRNA:86"]).

(** A first line with a capital letter. *)
Definition report_capital : file :=
  File "capital.txt"
    (text ["Organism: Escherichia coli strain K12_sample1";
           "contigs: 5"; "bases: 4641652"]).

(** A second line without a number. *)
Definition report_no_contigs : file :=
  File "nocontigs.txt"
    (text ["organism: Escherichia coli strain K12_sample1";
           "contigs: many"; "bases: 4641652"; "CDS:4289"]).

(** A line without a colon among the remaining lines. *)
Definition report_no_colon : file :=
  File "nocolon.txt"
    (text ["organism: Escherichia coli strain K12_sample1";
           "contigs: 5"; "bases: 4641652"; "no separator here"; "CDS:4289"]).

(** A count with a minus sign. *)
Definition report_negative : file :=
  File "negative.txt"
    (text ["organism: Escherichia coli strain K12_sample1";
           "contigs: 5"; "bases: 4641652"; "CDS:-5"]).

(** Remaining lines that name [organism], and a name with a space in
    front. *)
Definition report_redefined : file :=
  File "redefined.txt"
    (text ["organism: Escherichia coli strain K12_sample1";
           "contigs: 5"; "bases: 4641652"; "organism:7"; " CDS:5"]).

(** A second report of the sample of [report_K12], with other fields. *)
Definition report_K12_again : file :=
  File "K12_again.txt"
    (text ["organism: Shigella flexneri strain K12_sample1";
           "contigs: 9"; "bases: 100"; "tmRNA:1"]).

(** ** A file seen as a whole *)

(** The sample name that the first line of a file gives. *)
Definition sample_name (f : file) : string :=
  let '(first_line, _, _, _) := read_head f in s_name_of first_line.

(** The lines after the first three. *)
Definition trailing_lines (f : file) : list string :=
  let '(_, _, _, rest) := read_head f in Py.readlines rest.

(** The second and the third line. *)
Definition count_lines (f : file) : string * string :=
  let '(_, contigs_line, bases_line, _) := read_head f in
  (contigs_line, bases_line).

(** A line that [line.split(":")] cuts into exactly two pieces. *)
Definition two_pieces (line : string) : Prop :=
  exists d v, Py.split ":" None line = [d; v].

(** A line of two pieces whose second piece [int] refuses. *)
Definition bad_value (max_str_digits : nat) (line : string) : bool :=
  match Py.split ":" None line with
  | [_; v] =>
      match Py.int max_str_digits v with
      | Some _ => false
      | None => true
      end
  | _ => false
  end.

(** [body_view] and [header_log] of a file. *)
Definition file_view (max_str_digits : nat) (f : file)
  : result unit * record * list log_record :=
  let '(first_line, contigs_line, bases_line, rest) := read_head f in
  body_view max_str_digits first_line contigs_line bases_line rest.

Definition file_log (f : file) : list log_record :=
  let '(first_line, _, _, _) := read_head f in header_log f first_line.

(** A text without white space, and a token: such a text that is not
    empty. *)
Fixpoint no_white (w : string) : bool :=
  match w with
  | EmptyString => true
  | String c w' => negb (Py.isspace c) && no_white w'
  end.

Definition is_token (w : string) : bool :=
  match w with
  | EmptyString => false
  | String _ _ => no_white w
  end.

(** More sample reports: another sample, a value that is no number, and
    files that are too short. *)
Definition report_MG1655 : file :=
  File "MG1655.txt"
    (text ["organism: Escherichia coli strain MG1655";
           "contigs: 1"; "bases: 4641652"; "CDS:4321"]).

Definition report_bad_value : file :=
  File "badvalue.txt"
    (text ["organism: Escherichia coli strain K12_sample1";
           "contigs: 5"; "bases: 4641652";
           "CDS:4289"; "sig_peptide:notanumber"; "tRNA:86"]).

Definition report_empty : file := File "empty.txt" EmptyString.

(** The separator FS behind a number: white space for [strip], none for
    [int]. *)
Definition fs : string := String "028" EmptyString.

Definition report_fs : file :=
  File "fs.txt"
    (text ["organism: Escherichia coli strain K12_sample1";
           "contigs: 5"; "bases: 4641652"; "organism:7" ++ fs; "CDS:4289"]).

Definition report_two_lines : file :=
  File "short.txt"
    (text ["organism: Escherichia coli strain K12_sample1"; "contigs: 5"]).

(** ** Facts about the builtins *)

Section PyFacts.

Lemma startswith_app (p s : string) :
  Py.startswith s p = true -> exists t, s = p ++ t.
Proof.
  revert s. induction p as [|c p IH]; intros s H.
  - now exists s.
  - destruct s as [|c' s]; [discriminate|]. simpl in H.
    apply andb_true_iff in H as [Hc H]. apply Ascii.eqb_eq in Hc as ->.
    destruct (IH _ H) as [t ->]. now exists t.
Qed.

Lemma rstrip_cons_black c s :
  Py.isspace c = false -> Py.rstrip (String c s) = String c (Py.rstrip s).
Proof. intros H. simpl. rewrite H. now destruct (Py.rstrip s). Qed.

Lemma rstrip_empty_split_ws s :
  Py.rstrip s = EmptyString -> Py.split_ws s = [] /\ Py.starts_white s = true.
Proof.
  induction s as [|c s IH]; [easy|]. simpl.
  destruct (Py.rstrip s) eqn:E; [|discriminate].
  destruct (Py.isspace c); [|discriminate].
  intros _. now destruct IH.
Qed.

Lemma rstrip_starts_white s :
  Py.starts_white (Py.rstrip s) = Py.starts_white s.
Proof.
  destruct s as [|c s]; [easy|]. simpl.
  destruct (Py.rstrip s); [destruct (Py.isspace c) eqn:E|]; simpl; congruence.
Qed.

Lemma split_ws_cons_white c s :
  Py.isspace c = true -> Py.split_ws (String c s) = Py.split_ws s.
Proof. intros H. simpl. now rewrite H. Qed.

Lemma rstrip_cons_white c s :
  Py.isspace c = true ->
  Py.rstrip (String c s) =
  match Py.rstrip s with
  | EmptyString => EmptyString
  | _ => String c (Py.rstrip s)
  end.
Proof. intros H. simpl. rewrite H. now destruct (Py.rstrip s). Qed.

(** White space at the end of a text adds no token. *)
Lemma split_ws_rstrip s : Py.split_ws (Py.rstrip s) = Py.split_ws s.
Proof.
  induction s as [|c s IH]; [easy|].
  destruct (Py.isspace c) eqn:Ec.
  - rewrite rstrip_cons_white by assumption.
    rewrite (split_ws_cons_white c s) by assumption.
    destruct (Py.rstrip s) eqn:E.
    + now destruct (rstrip_empty_split_ws s E) as [-> _].
    + now rewrite split_ws_cons_white.
  - rewrite rstrip_cons_black by assumption. simpl.
    now rewrite Ec, rstrip_starts_white, IH.
Qed.

Lemma split_nonempty sep m s : Py.split sep m s <> [].
Proof.
  revert m. induction s as [|c s IH]; intros m; simpl; [easy|].
  destruct (Ascii.eqb c sep).
  - destruct m as [[|n]|]; easy.
  - specialize (IH m). now destruct (Py.split sep m s).
Qed.

(** A line [d:v] with no further colon splits into [d] and [v]. *)
Lemma split_no_sep sep s :
  (forall c, In c (list_ascii_of_string s) -> c <> sep) ->
  Py.split sep None s = [s].
Proof.
  induction s as [|c s IH]; intros H; [easy|]. simpl.
  destruct (Ascii.eqb_spec c sep) as [->|_].
  - exfalso. apply (H sep); simpl; auto.
  - rewrite IH; [easy|]. intros c' Hc'. apply H. simpl. auto.
Qed.

Lemma split_pair sep d v :
  (forall c, In c (list_ascii_of_string d) -> c <> sep) ->
  (forall c, In c (list_ascii_of_string v) -> c <> sep) ->
  Py.split sep None (d ++ String sep v) = [d; v].
Proof.
  intros Hd Hv. induction d as [|c d IH]; simpl.
  - rewrite Ascii.eqb_refl. now rewrite split_no_sep.
  - destruct (Ascii.eqb_spec c sep) as [->|_].
    + exfalso. apply (Hd sep); simpl; auto.
    + rewrite IH; [easy|]. intros c' Hc'. apply Hd. simpl. auto.
Qed.

(** The pieces of a split, put together again with the separator. *)
Lemma split_head sep s d rest :
  Py.split sep None s = d :: rest -> rest <> [] ->
  exists t, s = d ++ String sep t.
Proof.
  revert d rest. induction s as [|c s IH]; intros d rest; simpl.
  - intros [= <- <-]. easy.
  - destruct (Ascii.eqb_spec c sep) as [->|_].
    + intros [= <- <-] _. now exists s.
    + destruct (Py.split sep None s) as [|w ws] eqn:E.
      * now destruct (split_nonempty sep None s).
      * simpl. intros [= <- <-] Hne.
        destruct (IH w ws eq_refl Hne) as [t ->]. now exists t.
Qed.

Lemma digit_val_range c d : Py.digit_val c = Some d -> 0 <= d.
Proof.
  unfold Py.digit_val.
  destruct (_ && _) eqn:E; [|discriminate]. intros [= <-].
  apply andb_true_iff in E as [E _]. apply Nat.leb_le in E. lia.
Qed.

Lemma int_digits_nonneg need acc n s v n' :
  Py.int_digits need acc n s = Some (v, n') -> 0 <= acc -> 0 <= v.
Proof.
  revert need acc n. induction s as [|c s IH]; intros need acc n; simpl.
  - destruct need; [discriminate|]. now intros [= <- <-].
  - destruct (Py.digit_val c) as [d|] eqn:Ed.
    + intros H Hacc. apply (IH _ _ _ H).
      pose proof (digit_val_range _ _ Ed). lia.
    + destruct (_ && _); [|discriminate]. intros H Hacc. now apply (IH _ _ _ H).
Qed.

Lemma isspace_int_isspace c :
  Py.isspace_int c = true -> Py.isspace c = true.
Proof.
  destruct c as [[] [] [] [] [] [] [] []]; intros H;
    solve [reflexivity | discriminate H].
Qed.

(** What [int] finds in front after skipping is what [strip] finds, when
    it is no white space. *)
Lemma int_lskip_lstrip s c u :
  Py.int_lskip s = String c u -> Py.isspace c = false ->
  Py.lstrip s = String c u.
Proof.
  induction s as [|a s IH]; [discriminate|]. cbn [Py.int_lskip Py.lstrip].
  destruct (Py.isspace_int a) eqn:Ea.
  - rewrite (isspace_int_isspace a Ea). exact IH.
  - intros [= -> ->] Hc. now rewrite Hc.
Qed.

Lemma int_rskip_head s c r :
  Py.int_rskip s = String c r -> exists u, s = String c u.
Proof.
  destruct s as [|a s]; [discriminate|]. cbn [Py.int_rskip].
  destruct (Py.int_rskip s); [destruct (Py.isspace_int a)|];
    intros [= -> _]; eauto; discriminate.
Qed.

Lemma int_skip_strip s c r :
  Py.int_rskip (Py.int_lskip s) = String c r -> Py.isspace c = false ->
  exists r', Py.strip s = String c r'.
Proof.
  intros H Hc. destruct (int_rskip_head _ _ _ H) as [u Hu].
  unfold Py.strip. rewrite (int_lskip_lstrip s c u Hu Hc).
  rewrite rstrip_cons_black by exact Hc. eauto.
Qed.

(** [int] gives a negative number only for a text with a minus sign in
    front. *)
Lemma int_nonneg m s z :
  Py.int m s = Some z -> Py.startswith (Py.strip s) "-" = false -> 0 <= z.
Proof.
  unfold Py.int.
  destruct (Py.int_rskip (Py.int_lskip s)) as [|c r] eqn:Es.
  - cbn. discriminate.
  - destruct (Ascii.eqb_spec c "-") as [->|Hc].
    + intros _ Hm. destruct (int_skip_strip s _ _ Es) as [r' Hr'];
        [reflexivity|].
      rewrite Hr' in Hm. discriminate Hm.
    + intros H _.
      destruct (Ascii.eqb c "+");
        destruct (Py.int_digits _ _ _ _) as [[v n]|] eqn:E; try discriminate;
        destruct (Py.within_limit m n); try discriminate;
        injection H as <-; now apply (int_digits_nonneg _ _ _ _ _ _ E).
Qed.

End PyFacts.

(** *** Ordered dictionaries *)

(** Setting a key keeps the order of the keys: a known key stays where it
    is, a new one goes to the end. *)
Lemma OD_keys_set {V} k (v : V) d :
  OD.keys (OD.set k v d) =
  if bool_decide (k ∈ OD.keys d) then OD.keys d else (OD.keys d ++ [k])%list.
Proof.
  induction d as [|[k' v'] d IH]; [easy|]. cbn [OD.set OD.keys map fst].
  destruct (String.eqb_spec k' k) as [->|Hne].
  - rewrite bool_decide_eq_true_2 by left. reflexivity.
  - cbn [map fst]. fold (OD.keys (OD.set k v d)). rewrite IH.
    fold (OD.keys d). destruct (bool_decide_reflect (k ∈ OD.keys d)) as [Hin|Hin].
    + rewrite bool_decide_eq_true_2 by now right. reflexivity.
    + rewrite bool_decide_eq_false_2; [reflexivity|].
      intros [->|]%elem_of_cons; [now apply Hne|easy].
Qed.

Lemma OD_get_set {V} k (v : V) d : OD.get k (OD.set k v d) = Some v.
Proof.
  induction d as [|[k' v'] d IH]; cbn [OD.set OD.get].
  - now rewrite String.eqb_refl.
  - destruct (String.eqb k' k) eqn:E; cbn [OD.get]; now rewrite E.
Qed.

(** ** Running the statements *)

Section Run.

Variable max_str_digits : nat.

Lemma bind_run {A B} (m : M A) (k : A -> M B) st :
  (m ≫= k) st =
  match m st with
  | (Ok a, st') => k a st'
  | (Raise e, st') => (Raise e, st')
  end.
Proof. reflexivity. Qed.

Lemma filled_prokka st s r lg : prokka (filled st s r lg) = <[s := r]> (prokka st).
Proof. reflexivity. Qed.

Lemma filled_filled st s r lg r' lg' :
  filled (filled st s r lg) s r' lg' = filled st s r' (lg ++ lg').
Proof.
  unfold filled. simpl. now rewrite insert_insert_eq, app_assoc.
Qed.

Lemma filled_id st s r : prokka st !! s = Some r -> filled st s r [] = st.
Proof.
  intros H. destruct st as [t i l c]. unfold filled. simpl in *.
  now rewrite insert_id, app_nil_r.
Qed.

Lemma setfield_run st s r k v :
  prokka st !! s = Some r ->
  setfield s k v st = (Ok tt, filled st s (<[k := v]> r) []).
Proof.
  intros H. unfold setfield, filled. rewrite bind_run. simpl. rewrite H.
  unfold set_prokka. now rewrite app_nil_r.
Qed.

Lemma parse_line_run st s r line :
  prokka st !! s = Some r ->
  parse_line max_str_digits s line st =
  match Py.split ":" None line with
  | [description; value] =>
      match Py.int max_str_digits value with
      | Some n => (Ok tt, filled st s (<[description := VInt n]> r) [])
      | None => (Ok tt, filled st s r [unable line])
      end
  | _ => (Raise ValueError, st)
  end.
Proof.
  intros H. unfold parse_line. rewrite bind_run.
  destruct (Py.split ":" None line) as [|d [|v [|x xs]]]; try reflexivity.
  simpl. unfold try_except. rewrite bind_run. unfold int.
  destruct (Py.int max_str_digits v) as [n|]; simpl.
  - now rewrite (setfield_run st s r d (VInt n) H).
  - unfold filled. now rewrite insert_id.
Qed.

(** The loop does to the record what [scan_lines] says, and leaves the
    other records as they are. *)
Lemma for_each_parse_line lines : forall st s r,
  prokka st !! s = Some r ->
  for_each lines (parse_line max_str_digits s) st =
  let '(res, r', lg) := scan_lines max_str_digits lines r in
  (res, filled st s r' lg).
Proof.
  induction lines as [|line lines IH]; intros st s r H; simpl.
  - now rewrite filled_id.
  - rewrite bind_run, (parse_line_run st s r line H).
    destruct (Py.split ":" None line) as [|d [|v [|x xs]]];
      try (now rewrite filled_id).
    destruct (Py.int max_str_digits v) as [n|].
    + rewrite (IH _ s (<[d := VInt n]> r)) by (simpl; apply lookup_insert_eq).
      destruct (scan_lines _ _ _) as [[res r'] lg]. now rewrite filled_filled.
    + rewrite (IH _ s r) by (simpl; apply lookup_insert_eq).
      destruct (scan_lines _ _ _) as [[res r'] lg]. now rewrite filled_filled.
Qed.

Lemma split_zero sep s : Py.split sep (Some 0%nat) s = [s].
Proof.
  induction s as [|c s IH]; [easy|]. simpl.
  destruct (Ascii.eqb c sep); [easy|]. now rewrite IH.
Qed.

Lemma lstrip_black c s : Py.isspace c = false -> Py.lstrip (String c s) = String c s.
Proof. intros H. simpl. now rewrite H. Qed.

Lemma strip_organism t : Py.strip ("organism:" ++ t) = "organism:" ++ Py.rstrip t.
Proof.
  unfold Py.strip. cbv [String.append].
  rewrite lstrip_black by reflexivity.
  now rewrite !rstrip_cons_black by reflexivity.
Qed.

(** On a first line that passes the test, the code takes the organism that
    the specification describes. *)
Lemma organism_of_spec first_line st :
  Py.startswith first_line "organism:" = true ->
  organism_of first_line st = (Ok (spec_organism first_line), st).
Proof.
  intros H. destruct (startswith_app _ _ H) as [t ->].
  unfold organism_of, spec_organism. rewrite bind_run, strip_organism.
  cbv [String.append]; cbn [Py.split Ascii.eqb Bool.eqb Py.cons_head]. rewrite split_zero.
  cbn [after_first_colon Ascii.eqb Bool.eqb]. simpl.
  unfold mret, M_ret, Py.slice_to. now rewrite split_ws_rstrip.
Qed.

Lemma s_name_of_spec first_line : s_name_of first_line = spec_sample_id first_line.
Proof. reflexivity. Qed.

(** A line with a colon has a piece of index 1. *)
Lemma split_second p t :
  (forall c, In c (list_ascii_of_string p) -> c <> ":"%char) ->
  exists v, Py.split ":" None (p ++ String ":" t) !! 1%nat = Some v.
Proof.
  intros Hp. induction p as [|c p IH]; simpl.
  - destruct (Py.split ":" None t) as [|v vs] eqn:E.
    + now destruct (split_nonempty ":" None t).
    + now exists v.
  - destruct (Ascii.eqb_spec c ":") as [->|_].
    + exfalso. apply (Hp ":"%char); simpl; auto.
    + destruct IH as [v Hv]; [intros c' Hc'; apply Hp; simpl; auto|].
      exists v. destruct (Py.split ":" None (p ++ String ":" t)) as [|w ws];
        [discriminate|]. exact Hv.
Qed.

Lemma getitem_run {A} (l : list A) i x st :
  l !! i = Some x -> getitem l i st = (Ok x, st).
Proof. intros H. unfold getitem. now rewrite H. Qed.

Lemma int_run s st :
  int max_str_digits s st =
  match Py.int max_str_digits s with
  | Some z => (Ok z, st)
  | None => (Raise ValueError, st)
  end.
Proof. unfold int. now destruct (Py.int max_str_digits s). Qed.

Lemma startswith_second line p :
  In p ["contigs:"; "bases:"] ->
  Py.startswith line p = true ->
  exists v, Py.split ":" None line !! 1%nat = Some v.
Proof.
  intros Hp H. destruct (startswith_app _ _ H) as [t ->].
  destruct Hp as [<-|[<-|[]]].
  - apply (split_second "contigs" t). simpl. intuition (subst; discriminate).
  - apply (split_second "bases" t). simpl. intuition (subst; discriminate).
Qed.

Lemma recognized_true l1 l2 l3 :
  recognized l1 l2 l3 = true <->
  Py.startswith l1 "organism:" = true /\
  Py.startswith l2 "contigs:" = true /\
  Py.startswith l3 "bases:" = true.
Proof.
  unfold recognized. simpl. unfold id. rewrite !andb_true_iff. tauto.
Qed.

Lemma setfield_filled st s r lg k v :
  setfield s k v (filled st s r lg) = (Ok tt, filled st s (<[k := v]> r) lg).
Proof.
  rewrite (setfield_run _ s r) by apply lookup_insert_eq.
  now rewrite filled_filled, app_nil_r.
Qed.

Lemma log_debug_filled st s r lg msg args :
  log_debug msg args (filled st s r lg) =
  (Ok tt, filled st s r (lg ++ [LogRecord DEBUG msg args])).
Proof. unfold log_debug, emit, filled. simpl. now rewrite app_assoc. Qed.

Lemma for_each_filled lines st s r lg :
  for_each lines (parse_line max_str_digits s) (filled st s r lg) =
  let '(res, r', lg') := scan_lines max_str_digits lines r in
  (res, filled st s r' (lg ++ lg')).
Proof.
  rewrite (for_each_parse_line lines _ s r) by apply lookup_insert_eq.
  destruct (scan_lines _ _ _) as [[res r'] lg']. now rewrite filled_filled.
Qed.

(** [parse_body] does to the table what [body_view] says. *)
Lemma parse_body_view f l1 l2 l3 rest st :
  recognized l1 l2 l3 = true ->
  parse_body max_str_digits f l1 l2 l3 rest st =
  let '(res, r, lg) := body_view max_str_digits l1 l2 l3 rest in
  (res, filled st (spec_sample_id l1) r (header_log f l1 ++ lg)).
Proof.
  intros H. apply recognized_true in H as (H1 & H2 & H3).
  destruct (startswith_second l2 "contigs:") as [c Hc]; [simpl; auto|easy|].
  destruct (startswith_second l3 "bases:") as [b Hb]; [simpl; auto|easy|].
  unfold parse_body, body_view, count_of, header_log. rewrite Hc, Hb. simpl.
  rewrite s_name_of_spec. set (s := spec_sample_id l1).
  set (o := spec_organism l1).
  rewrite bind_run. unfold log_debug at 1, emit at 1.
  rewrite bind_run, organism_of_spec by easy. fold o.
  rewrite bind_run. unfold setrecord at 1. rewrite bind_run. simpl.
  match goal with
  | |- context [State (<[s:=∅]> (prokka st)) (intro st) (log st ++ ?l) _] =>
      change (State (<[s:=∅]> (prokka st)) (intro st) (log st ++ l) (calls st))
        with (filled st s ∅ l)
  end.
  rewrite bind_run, setfield_filled, bind_run, log_debug_filled.
  rewrite bind_run, (getitem_run _ _ _ _ Hc), bind_run, int_run.
  destruct (Py.int max_str_digits c) as [nc|]; [|reflexivity].
  rewrite bind_run, setfield_filled.
  rewrite bind_run, (getitem_run _ _ _ _ Hb), bind_run, int_run.
  destruct (Py.int max_str_digits b) as [nb|]; [|reflexivity].
  rewrite bind_run, setfield_filled, for_each_filled.
  now destruct (scan_lines _ _ _) as [[res r'] lg'].
Qed.

Lemma parse_prokka_view f l1 l2 l3 rest st :
  read_head f = (l1, l2, l3, rest) ->
  parse_prokka max_str_digits f st =
  if recognized l1 l2 l3 then
    let '(res, r, lg) := body_view max_str_digits l1 l2 l3 rest in
    (res, filled st (spec_sample_id l1) r (header_log f l1 ++ lg))
  else (Ok tt, st).
Proof.
  intros Hh. unfold parse_prokka. rewrite Hh.
  destruct (recognized l1 l2 l3) eqn:E; simpl; [|reflexivity].
  now apply parse_body_view.
Qed.

(** *** What the loop keeps *)

(** A property of the record that every stored line keeps is kept by the
    loop, however it ends. *)
Lemma scan_lines_inv (P : record -> Prop) lines : forall r res r' lg,
  scan_lines max_str_digits lines r = (res, r', lg) ->
  (forall line d v z q, line ∈ lines -> Py.split ":" None line = [d; v] ->
     Py.int max_str_digits v = Some z -> P q -> P (<[d := VInt z]> q)) ->
  P r -> P r'.
Proof.
  induction lines as [|line lines IH]; intros r res r' lg; simpl.
  - now intros [= _ <- _].
  - intros H Hstep Hr.
    assert (Hstep' : forall line d v z q, line ∈ lines ->
      Py.split ":" None line = [d; v] ->
      Py.int max_str_digits v = Some z -> P q -> P (<[d := VInt z]> q)).
    { intros l d v z q Hl. apply Hstep. now right. }
    destruct (Py.split ":" None line) as [|d [|v [|x xs]]] eqn:E;
      try (injection H as _ <- _; exact Hr).
    destruct (Py.int max_str_digits v) as [z|] eqn:Ez.
    + apply (IH _ _ _ _ H Hstep'). apply (Hstep line d v z); [left|..]; easy.
    + destruct (scan_lines _ _ _) as [[res0 r0] lg0] eqn:E0.
      injection H as _ <- _. now apply (IH _ _ _ _ E0 Hstep').
Qed.

Lemma scan_lines_res lines : forall r res r' lg,
  scan_lines max_str_digits lines r = (res, r', lg) ->
  res = Ok tt \/ res = Raise ValueError.
Proof.
  induction lines as [|line lines IH]; intros r res r' lg; simpl.
  - intros [= <- _ _]. now left.
  - destruct (Py.split ":" None line) as [|d [|v [|x xs]]];
      try (intros [= <- _ _]; now right).
    destruct (Py.int max_str_digits v) as [z|]; [apply IH|].
    destruct (scan_lines _ _ _) as [[res0 r0] lg0] eqn:E0.
    intros [= <- _ _]. eapply IH, E0.
Qed.

(** The loop ends well when every line has exactly one colon. *)
Lemma scan_lines_ok lines : forall r,
  (forall line, line ∈ lines -> exists d v, Py.split ":" None line = [d; v]) ->
  exists r' lg, scan_lines max_str_digits lines r = (Ok tt, r', lg).
Proof.
  induction lines as [|line lines IH]; intros r H; simpl; [eauto|].
  destruct (H line) as (d & v & ->); [now left|].
  assert (H' : forall l, l ∈ lines -> exists d v, Py.split ":" None l = [d; v]).
  { intros l Hl. apply H. now right. }
  destruct (Py.int max_str_digits v) as [z|]; [now apply IH|].
  destruct (IH r H') as (r' & lg & ->). eauto.
Qed.

Lemma scan_lines_app pre post : forall r,
  scan_lines max_str_digits (pre ++ post) r =
  match scan_lines max_str_digits pre r with
  | (Ok _, r1, lg1) =>
      let '(res, r2, lg2) := scan_lines max_str_digits post r1 in
      (res, r2, (lg1 ++ lg2)%list)
  | other => other
  end.
Proof.
  induction pre as [|line pre IH]; intros r; simpl.
  - now destruct (scan_lines _ post r) as [[res r2] lg2].
  - destruct (Py.split ":" None line) as [|d [|v [|x xs]]]; try reflexivity.
    destruct (Py.int max_str_digits v) as [z|]; [apply IH|].
    rewrite IH. destruct (scan_lines _ pre r) as [[[[]|e] r1] lg1]; [|easy].
    now destruct (scan_lines _ post r1) as [[res r2] lg2].
Qed.

Lemma startswith_app_true p t : Py.startswith (p ++ t) p = true.
Proof.
  induction p as [|c p IH]; [easy|].
  change (String c p ++ t) with (String c (p ++ t)). simpl.
  now rewrite Ascii.eqb_refl, IH.
Qed.

Lemma str_app_assoc (a b c : string) : (a ++ b) ++ c = a ++ (b ++ c).
Proof.
  induction a as [|x a IH]; [easy|].
  change (String x (a ++ b) ++ c = String x (a ++ (b ++ c))).
  change (String x ((a ++ b) ++ c) = String x (a ++ (b ++ c))).
  now rewrite IH.
Qed.

(** A line of description [d] starts with [d:]. *)
Lemma split_startswith line d v :
  Py.split ":" None line = [d; v] -> Py.startswith line (d ++ ":") = true.
Proof.
  intros H. destruct (split_head ":" line d [v] H) as [t ->]; [easy|].
  change (String ":" t) with (":" ++ t).
  rewrite <- str_app_assoc. apply startswith_app_true.
Qed.

(** A field is as before the loop when no line starts with its name and a
    colon. *)
Lemma scan_lines_keep k lines r res r' lg :
  scan_lines max_str_digits lines r = (res, r', lg) ->
  (forall line, line ∈ lines -> Py.startswith line (k ++ ":") = false) ->
  r' !! k = r !! k.
Proof.
  intros H Hk.
  apply (scan_lines_inv (fun q => q !! k = r !! k) lines r res r' lg H);
    [|reflexivity].
  intros line d v z q Hl Hs _ Hq.
  rewrite lookup_insert_ne; [exact Hq|]. intros ->.
  apply split_startswith in Hs. rewrite (Hk line Hl) in Hs. discriminate.
Qed.

Lemma scan_lines_dom k lines r res r' lg :
  scan_lines max_str_digits lines r = (res, r', lg) ->
  is_Some (r !! k) -> is_Some (r' !! k).
Proof.
  intros H. apply (scan_lines_inv (fun q => is_Some (q !! k)) lines r res r' lg H).
  intros line d v z q _ _ _ Hq. rewrite lookup_insert.
  now destruct (decide (d = k)).
Qed.

Lemma body_view_res l1 l2 l3 rest res r lg :
  body_view max_str_digits l1 l2 l3 rest = (res, r, lg) ->
  res = Ok tt \/ res = Raise ValueError.
Proof.
  unfold body_view.
  destruct (count_of max_str_digits l2); [|intros [= <- _ _]; now right].
  destruct (count_of max_str_digits l3); [|intros [= <- _ _]; now right].
  apply scan_lines_res.
Qed.

(** A record that the parser has gone through to the end has the three
    fields of the first three lines. *)
Lemma body_view_complete l1 l2 l3 rest r lg :
  body_view max_str_digits l1 l2 l3 rest = (Ok tt, r, lg) -> complete r.
Proof.
  unfold body_view.
  destruct (count_of max_str_digits l2) as [c|]; [|discriminate].
  destruct (count_of max_str_digits l3) as [b|]; [|discriminate].
  intros E.
  repeat split; apply (scan_lines_dom _ _ _ _ _ _ E);
    rewrite ?lookup_insert_eq, ?lookup_insert_ne by easy; eauto;
    rewrite ?lookup_insert_eq, ?lookup_insert_ne by easy; eauto.
Qed.

(** What one file does to the state. *)
Lemma parse_prokka_cases f st :
  (passes_gate f = false /\ parse_prokka max_str_digits f st = (Ok tt, st)) \/
  (passes_gate f = true /\
   exists res s_name r lg,
     parse_prokka max_str_digits f st = (res, filled st s_name r lg) /\
     (res = Ok tt \/ res = Raise ValueError) /\
     (res = Ok tt -> complete r)).
Proof.
  destruct (read_head f) as [[[l1 l2] l3] rest] eqn:Hh.
  unfold passes_gate. rewrite Hh, (parse_prokka_view _ _ _ _ _ _ Hh).
  destruct (recognized l1 l2 l3); [right|now left].
  split; [reflexivity|].
  destruct (body_view max_str_digits l1 l2 l3 rest) as [[res r] lg] eqn:E.
  exists res, (spec_sample_id l1), r, (header_log f l1 ++ lg)%list.
  split; [reflexivity|]. split; [apply (body_view_res _ _ _ _ _ _ _ E)|].
  intros ->. apply (body_view_complete _ _ _ _ _ _ E).
Qed.

(** The loop of [__init__] over the files. *)
Lemma for_each_parse_prokka files : forall st res st',
  for_each files (parse_prokka max_str_digits) st = (res, st') ->
  (res = Ok tt \/ res = Raise ValueError) /\
  intro st' = intro st /\ calls st' = calls st /\
  ((forall f, f ∈ files -> passes_gate f = false) -> res = Ok tt /\ st' = st) /\
  ((exists f, f ∈ files /\ passes_gate f = true) -> prokka st' <> ∅) /\
  (prokka st <> ∅ -> prokka st' <> ∅) /\
  (res = Ok tt -> map_Forall (fun _ r => complete r) (prokka st) ->
   map_Forall (fun _ r => complete r) (prokka st')).
Proof.
  induction files as [|f files IH]; intros st res st'; cbn [for_each].
  - intros [= <- <-].
    split; [now left|]. do 3 (split; [easy|]).
    split; [intros (f & Hf & _); inversion Hf|easy].
  - rewrite bind_run.
    destruct (parse_prokka_cases f st)
      as [[Hg ->]|(Hg & r1 & s & r & lg & -> & Hr1 & Hc)].
    + intros H. destruct (IH _ _ _ H) as (I1 & I2 & I3 & I4 & I5 & I6 & I7).
      do 3 (split; [easy|]). split; [|split; [|easy]].
      * intros Hall. apply I4. intros f' Hf'. apply Hall. now right.
      * intros (f' & Hf' & Hg'). apply I5. exists f'. split; [|easy].
        apply elem_of_cons in Hf' as [->|]; [congruence|easy].
    + assert (Hnot : ~ forall f', f' ∈ f :: files -> passes_gate f' = false).
      { intros Hall. rewrite (Hall f) in Hg; [discriminate|left]. }
      destruct r1 as [[]|e].
      * intros H. destruct (IH _ _ _ H) as (I1 & I2 & I3 & I4 & I5 & I6 & I7).
        do 3 (split; [easy|]). split; [easy|].
        split; [intros _; apply I6, insert_non_empty|].
        split; [intros _; apply I6, insert_non_empty|].
        intros Hres Hall. apply (I7 Hres). cbn [filled prokka].
        apply map_Forall_insert_2; auto.
      * intros [= <- <-]. destruct Hr1 as [|[= ->]]; [discriminate|].
        split; [now right|]. do 2 (split; [easy|]). split; [easy|].
        split; [intros _; apply insert_non_empty|].
        split; [intros _; apply insert_non_empty|discriminate].
Qed.

Variable analysis_dir : string.
Variable bargraph_html : table -> OD.t attrs -> attrs -> string.

(** [__init__], step by step. *)
Lemma init_run files st :
  init max_str_digits analysis_dir bargraph_html files st =
  match for_each files (parse_prokka max_str_digits)
          (State ∅ (intro st) (log st) (calls st)) with
  | (Raise e, st2) => (Raise e, st2)
  | (Ok _, st2) =>
      let t := prokka st2 in
      if (size t =? 0)%nat then
        (Raise UserWarning,
         State t (intro st2)
           (log st2 ++ [LogRecord DEBUG "Could not find any Prokka data in {}"
                          [VStr analysis_dir]])
           (calls st2))
      else
        (Ok tt,
         State t
           (intro st2 ++ bargraph_html t barplot_keys barplot_pconfig)
           (log st2 ++ [LogRecord INFO "Found {} logs"
                          [VInt (Z.of_nat (size t))]])
           (calls st2 ++
              [write_data_file t "multiqc_prokka";
               general_stats_addcols t general_stats_headers;
               bargraph_plot t barplot_keys barplot_pconfig]))
  end.
Proof.
  unfold init. rewrite bind_run. cbn [set_prokka]. rewrite bind_run.
  destruct (for_each files _ _) as [[[]|e] st2]; [|reflexivity].
  rewrite bind_run. cbn [get_prokka]. rewrite bind_run.
  destruct (size (prokka st2) =? 0)%nat; [reflexivity|].
  cbv [mret M_ret mbind M_bind log_info emit do_call prokka_barplot
       add_intro get_prokka prokka intro log calls].
  now rewrite <- !app_assoc.
Qed.

End Run.

(** ** The sample reports, run *)

(** The scenario of the specification: the sample name is
    [strain K12_sample1], the organism [Escherichia coli], and the six
    fields hold the numbers of the report. *)
Example run_K12 :
  parse_prokka 4300 report_K12 fresh =
  (Ok tt,
   State {["strain K12_sample1" :=
             <["tRNA" := VInt 86]> (<["rRNA" := VInt 22]>
               (<["CDS" := VInt 4289]> head_K12))]}
         "" (header_log report_K12 line_K12) []).
Proof. vm_compute. reflexivity. Qed.

Example run_capital : parse_prokka 4300 report_capital fresh = (Ok tt, fresh).
Proof. vm_compute. reflexivity. Qed.

Example run_no_contigs :
  parse_prokka 4300 report_no_contigs fresh =
  (Raise ValueError,
   State {["strain K12_sample1" :=
             {["organism" := VStr "Escherichia coli"]}]}
         "" (header_log report_no_contigs line_K12) []).
Proof. vm_compute. reflexivity. Qed.

Example run_negative :
  parse_prokka 4300 report_negative fresh =
  (Ok tt,
   State {["strain K12_sample1" := <["CDS" := VInt (-5)]> head_K12]}
         "" (header_log report_negative line_K12) []).
Proof. vm_compute. reflexivity. Qed.

Example run_redefined :
  parse_prokka 4300 report_redefined fresh =
  (Ok tt,
   State {["strain K12_sample1" :=
             <[" CDS" := VInt 5]> (<["organism" := VInt 7]> head_K12)]}
         "" (header_log report_redefined line_K12) []).
Proof. vm_compute. reflexivity. Qed.

Example run_no_colon :
  parse_prokka 4300 report_no_colon fresh =
  (Raise ValueError,
   State {["strain K12_sample1" := head_K12]}
         "" (header_log report_no_colon line_K12) []).
Proof. vm_compute. reflexivity. Qed.

Example init_nothing_usable :
  fst (init 4300 "." (fun _ _ _ => "") [report_capital] fresh)
  = Raise UserWarning.
Proof. vm_compute. reflexivity. Qed.

Example init_one_usable :
  fst (init 4300 "." (fun _ _ _ => "") [report_capital; report_K12] fresh)
  = Ok tt.
Proof. vm_compute. reflexivity. Qed.

Example sample_id_empty :
  s_name_of ("organism: Escherichia coli" ++ nl) = "".
Proof. reflexivity. Qed.

Example run_K12_twice :
  parse_prokka 4300 report_K12_again
    (snd (parse_prokka 4300 report_K12 fresh)) =
  (Ok tt,
   State {["strain K12_sample1" :=
             <["tmRNA" := VInt 1]> (<["bases" := VInt 100]>
               (<["contigs" := VInt 9]>
                  {["organism" := VStr "Shigella flexneri"]}))]}
         ""
         (header_log report_K12 line_K12 ++
          header_log report_K12_again
            ("organism: Shigella flexneri strain K12_sample1" ++ nl))
         []).
Proof. vm_compute. reflexivity. Qed.

(** ** The properties of the module *)

(** C1: on a file that passes the test, the organism that the code takes
    is the first two tokens of the text after the first colon of the first
    line, joined by one space, and the sample name is the tokens of the
    whole first line from token 3 on, joined by one space (the empty text
    when there are fewer than four, nothing stands in for it).  The record
    of the table is stored under this name, the two values are logged, and
    the field [organism] of the record holds this organism unless one of
    the remaining lines starts with [organism:]. *)
Theorem C1_extraction max_str_digits f st l1 l2 l3 rest :
  read_head f = (l1, l2, l3, rest) ->
  recognized l1 l2 l3 = true ->
  organism_of l1 st = (Ok (spec_organism l1), st) /\
  s_name_of l1 = spec_sample_id l1 /\
  ((List.length (Py.split_ws l1) <= 3)%nat -> s_name_of l1 = "") /\
  exists res st' r,
    parse_prokka max_str_digits f st = (res, st') /\
    prokka st' !! spec_sample_id l1 = Some r /\
    LogRecord DEBUG "Found sample name '%s' for organism '%s'"
      [VStr (spec_sample_id l1); VStr (spec_organism l1)] ∈ log st' /\
    ((forall line, line ∈ Py.readlines rest ->
        Py.startswith line "organism:" = false) ->
     r !! "organism" = Some (VStr (spec_organism l1))).
Proof.
  intros Hh Hr. split; [|split; [|split]].
  - apply organism_of_spec. now apply recognized_true in Hr.
  - reflexivity.
  - intros Hlen. unfold s_name_of, Py.slice_from.
    now rewrite drop_ge by exact Hlen.
  - rewrite (parse_prokka_view _ _ _ _ _ _ _ Hh), Hr.
    destruct (body_view max_str_digits l1 l2 l3 rest) as [[res r] lg] eqn:E.
    exists res, (filled st (spec_sample_id l1) r (header_log f l1 ++ lg)), r.
    split; [reflexivity|]. split; [apply lookup_insert_eq|]. split.
    + unfold filled, header_log. simpl. set_solver.
    + intros Hno. unfold body_view in E.
      destruct (count_of max_str_digits l2) as [c|];
        [|injection E as _ <- _; apply lookup_insert_eq].
      destruct (count_of max_str_digits l3) as [b|];
        [|injection E as _ <- _; now rewrite lookup_insert_ne].
      rewrite (scan_lines_keep _ "organism" _ _ _ _ _ E Hno).
      now rewrite !lookup_insert_ne.
Qed.

Lemma C1_extraction_witness :
  organism_of ("organism: Escherichia coli strain K12_sample1" ++ nl) fresh
    = (Ok "Escherichia coli", fresh) /\
  s_name_of ("organism: Escherichia coli strain K12_sample1" ++ nl)
    = "strain K12_sample1" /\
  ((List.length
      (Py.split_ws ("organism: Escherichia coli strain K12_sample1" ++ nl))
    <= 3)%nat ->
   s_name_of ("organism: Escherichia coli strain K12_sample1" ++ nl) = "") /\
  exists res st' r,
    parse_prokka 4300 report_K12 fresh = (res, st') /\
    prokka st' !! "strain K12_sample1" = Some r /\
    LogRecord DEBUG "Found sample name '%s' for organism '%s'"
      [VStr "strain K12_sample1"; VStr "Escherichia coli"] ∈ log st' /\
    ((forall line, line ∈ ["CDS:4289" ++ nl; "rRNA:22" ++ nl; "tRNA:86" ++ nl] ->
        Py.startswith line "organism:" = false) ->
     r !! "organism" = Some (VStr "Escherichia coli")).
Proof.
  exact (C1_extraction 4300 report_K12 fresh _ _ _ _ eq_refl eq_refl).
Defined.

(** C2: a file whose first three lines do not start, in this order and
    with these very letters, with [organism:], [contigs:] and [bases:] is
    not taken: [parse_prokka] returns without raising and the state of the
    module, the table with it, is what it was. *)
Theorem C2_rejected_unchanged max_str_digits f st l1 l2 l3 rest :
  read_head f = (l1, l2, l3, rest) ->
  ~ (Py.startswith l1 "organism:" = true /\
     Py.startswith l2 "contigs:" = true /\
     Py.startswith l3 "bases:" = true) ->
  parse_prokka max_str_digits f st = (Ok tt, st).
Proof.
  intros Hh Hn. rewrite (parse_prokka_view _ _ _ _ _ _ _ Hh).
  destruct (recognized l1 l2 l3) eqn:E; [|reflexivity].
  now apply recognized_true in E.
Qed.

Lemma C2_rejected_unchanged_witness :
  parse_prokka 4300 report_capital fresh = (Ok tt, fresh).
Proof.
  eapply (C2_rejected_unchanged 4300 report_capital fresh).
  - reflexivity.
  - intros [H _]. vm_compute in H. discriminate.
Defined.

(** C3: the code does not do what the claim says.  A remaining line
    without a colon is not logged and skipped: the unpacking of
    [line.split(":")] stands outside the [try], and the [ValueError] it
    raises ends [parse_prokka]; the line [CDS:4289] after it is never read,
    and nothing is logged about the line. *)
Theorem C3_no_colon_raises :
  exists st',
    parse_prokka 4300 report_no_colon fresh = (Raise ValueError, st') /\
    prokka st' !! "strain K12_sample1" = Some head_K12 /\
    head_K12 !! "CDS" = None /\
    unable ("no separator here" ++ nl) ∉ log st'.
Proof.
  eexists. split; [apply run_no_colon|]. cbn [prokka log].
  split; [apply lookup_singleton_eq|]. split; [vm_compute; reflexivity|].
  unfold header_log. rewrite !elem_of_cons, elem_of_nil.
  intros [H|[H|[]]]; discriminate H.
Qed.

(** C4, as the claim has it, fails: when the second line holds no number,
    [parse_prokka] raises after it has put the record with the field
    [organism] alone into the table. *)
Lemma C4_counterexample : ~ atomic_on 4300 report_no_contigs fresh.
Proof.
  unfold atomic_on. rewrite run_no_contigs. cbn [snd prokka fresh].
  intros [H|(s & r & H & _ & [x Hx] & _)].
  - exact (map_non_empty_singleton _ _ H).
  - apply (f_equal (fun m : table => m !! "strain K12_sample1")) in H.
    rewrite lookup_singleton_eq, lookup_insert in H. case_decide.
    + injection H as <-. now rewrite lookup_singleton_ne in Hx.
    + now rewrite lookup_empty in H.
Qed.

(** C4, amended: when [parse_prokka] returns without raising, either the
    file did not pass the test and the state is as before, or the table is
    the one of before with a record put under the sample name that has the
    fields [organism], [contigs] and [bases]. *)
Theorem C4_complete_or_unchanged max_str_digits f st st' l1 l2 l3 rest :
  read_head f = (l1, l2, l3, rest) ->
  parse_prokka max_str_digits f st = (Ok tt, st') ->
  (recognized l1 l2 l3 = false /\ st' = st) \/
  (recognized l1 l2 l3 = true /\
   exists r, prokka st' = <[spec_sample_id l1 := r]> (prokka st) /\
             complete r).
Proof.
  intros Hh. rewrite (parse_prokka_view _ _ _ _ _ _ _ Hh).
  destruct (recognized l1 l2 l3); [|intros [= <-]; now left].
  destruct (body_view max_str_digits l1 l2 l3 rest) as [[res r] lg] eqn:E.
  intros [= -> <-]. right. split; [reflexivity|]. exists r.
  split; [reflexivity|]. apply (body_view_complete _ _ _ _ _ _ _ E).
Qed.

Lemma C4_complete_or_unchanged_witness :
  (recognized line_K12 ("contigs: 5" ++ nl) ("bases: 4641652" ++ nl) = false /\
   snd (parse_prokka 4300 report_K12 fresh) = fresh) \/
  (recognized line_K12 ("contigs: 5" ++ nl) ("bases: 4641652" ++ nl) = true /\
   exists r,
     prokka (snd (parse_prokka 4300 report_K12 fresh)) =
       <[spec_sample_id line_K12 := r]> (prokka fresh) /\
     complete r).
Proof.
  assert (E : parse_prokka 4300 report_K12 fresh =
              (Ok tt, snd (parse_prokka 4300 report_K12 fresh)))
    by (vm_compute; reflexivity).
  exact (C4_complete_or_unchanged 4300 report_K12 fresh _ _ _ _ _ eq_refl E).
Defined.

(** C5: [__init__] raises [UserWarning], the sign that there is nothing to
    show, exactly when no file of the whole collection passes the test.
    The table is then empty; and when [__init__] returns, the table is not
    empty. *)
Theorem C5_no_usable_input max_str_digits analysis_dir bargraph_html files st :
  (fst (init max_str_digits analysis_dir bargraph_html files st)
     = Raise UserWarning <->
   forall f, f ∈ files -> passes_gate f = false) /\
  (fst (init max_str_digits analysis_dir bargraph_html files st)
     = Raise UserWarning <->
   fst (for_each files (parse_prokka max_str_digits)
          (State ∅ (intro st) (log st) (calls st))) = Ok tt /\
   prokka (snd (init max_str_digits analysis_dir bargraph_html files st)) = ∅) /\
  (fst (init max_str_digits analysis_dir bargraph_html files st) = Ok tt <->
   fst (for_each files (parse_prokka max_str_digits)
          (State ∅ (intro st) (log st) (calls st))) = Ok tt /\
   prokka (snd (init max_str_digits analysis_dir bargraph_html files st)) <> ∅).
Proof.
  rewrite init_run.
  destruct (for_each files _ _) as [res st2] eqn:E.
  destruct (for_each_parse_prokka max_str_digits files _ _ _ E)
    as (I1 & _ & _ & I4 & I5 & _ & _).
  cbn [fst].
  destruct (decide (Forall (fun f => passes_gate f = false) files)) as [Hall|Hex].
  - rewrite Forall_forall in Hall. destruct (I4 Hall) as [-> ->].
    cbn [prokka]. rewrite map_size_empty. cbn [Nat.eqb fst snd prokka].
    split; [easy|]. split; [easy|]. split; [discriminate|]. now intros [_ H].
  - assert (Hne : prokka st2 <> ∅).
    { apply I5. apply not_Forall_Exists in Hex; [|apply _].
      apply Exists_exists in Hex as (f & Hf & Hg). exists f. split; [easy|].
      now apply not_false_iff_true. }
    rewrite <- Forall_forall.
    destruct I1 as [-> | ->].
    + pose proof (proj2 (map_size_non_empty_iff _) Hne) as Hs.
      apply Nat.eqb_neq in Hs.
      cbv zeta. rewrite Hs. cbn [fst snd prokka].
      split; [split; [discriminate|easy]|].
      split; [split; [discriminate|now intros [_ H]]|easy].
    + cbn [fst snd]. split; [split; [discriminate|easy]|].
      split; [split; [discriminate|]|split; [discriminate|]];
        now intros [H _].
Qed.



(** The fields of the first report are gone after the second. *)
Example overwrite_K12 :
  forall r,
    prokka (snd (parse_prokka 4300 report_K12_again
                   (snd (parse_prokka 4300 report_K12 fresh))))
      !! "strain K12_sample1" = Some r ->
    r !! "organism" = Some (VStr "Shigella flexneri") /\
    r !! "contigs" = Some (VInt 9) /\ r !! "tmRNA" = Some (VInt 1) /\
    r !! "CDS" = None /\ r !! "rRNA" = None /\ r !! "tRNA" = None.
Proof.
  intros r. rewrite run_K12_twice. cbn [snd prokka].
  rewrite lookup_singleton_eq. intros [= <-].
  repeat split; vm_compute; reflexivity.
Qed.

(** C7, as the claim has it, fails: [int] takes a minus sign, and the
    line [CDS:-5] stores -5. *)
Lemma C7_counterexample :
  ~ (forall r,
       prokka (snd (parse_prokka 4300 report_negative fresh))
         !! "strain K12_sample1" = Some r ->
       nonneg_counts r).
Proof.
  rewrite run_negative. cbn [snd prokka]. intros H.
  specialize (H _ (lookup_singleton_eq _ _) "CDS" (VInt (-5))
                (lookup_insert_eq _ _ _)).
  destruct H as (z & Hz & Hpos); [discriminate|].
  injection Hz as <-. lia.
Qed.

(** C7, amended: in the record that a file which passes the test leaves
    in the table, every field but [organism] is an integer, and this
    integer is not negative when no count of the file, in the second line,
    the third or the remaining ones, has a minus sign in front. *)
Theorem C7_counts_are_integers max_str_digits f st l1 l2 l3 rest r k v :
  read_head f = (l1, l2, l3, rest) ->
  recognized l1 l2 l3 = true ->
  prokka (snd (parse_prokka max_str_digits f st)) !! spec_sample_id l1
    = Some r ->
  r !! k = Some v ->
  k <> "organism" ->
  exists z, v = VInt z /\
    ((forall line, line ∈ l2 :: l3 :: Py.readlines rest -> no_minus line) ->
     0 <= z).
Proof.
  intros Hh Hr. rewrite (parse_prokka_view _ _ _ _ _ _ _ Hh), Hr.
  set (N := forall line, line ∈ l2 :: l3 :: Py.readlines rest -> no_minus line).
  set (P := fun q : record => forall k v, q !! k = Some v -> k <> "organism" ->
              exists z, v = VInt z /\ (N -> 0 <= z)).
  assert (Hcount : forall line c q, line ∈ l2 :: l3 :: Py.readlines rest ->
            count_of max_str_digits line = Some c -> forall d,
            P q -> P (<[d := VInt c]> q)).
  { intros line c q Hl Hc d Hq k' v'. rewrite lookup_insert.
    case_decide; [|apply Hq]. intros [= <-] _. exists c. split; [easy|].
    intros HN. unfold count_of in Hc.
    destruct (Py.split ":" None line !! 1%nat) as [t|] eqn:Et; [|discriminate].
    apply (int_nonneg _ _ _ Hc). now apply (HN line). }
  assert (P0 : P {["organism" := VStr (spec_organism l1)]}).
  { intros k' v'. rewrite lookup_singleton.
    case_decide; [congruence|discriminate]. }
  destruct (body_view max_str_digits l1 l2 l3 rest) as [[res r0] lg] eqn:E.
  cbn [snd filled prokka]. rewrite lookup_insert_eq. intros [= <-] Hk Hne.
  revert k v Hk Hne. change (P r0). unfold body_view in E.
  destruct (count_of max_str_digits l2) as [c|] eqn:Ec;
    [|injection E as _ <- _; exact P0].
  pose proof (Hcount l2 c _ (list_elem_of_here _ _) Ec "contigs" P0) as P1.
  destruct (count_of max_str_digits l3) as [b|] eqn:Eb;
    [|injection E as _ <- _; exact P1].
  pose proof (Hcount l3 b _
                (list_elem_of_further _ _ _ (list_elem_of_here _ _))
                Eb "bases" P1) as P2.
  apply (scan_lines_inv _ P _ _ _ _ _ E); [|exact P2].
  intros line d t z q Hl Hs Hz Hq.
  apply (Hcount line z q); [now do 2 apply list_elem_of_further| |exact Hq].
  unfold count_of. now rewrite Hs.
Qed.

Lemma C7_counts_are_integers_witness :
  exists z, VInt 4289 = VInt z /\
    ((forall line,
        line ∈ ("contigs: 5" ++ nl) :: ("bases: 4641652" ++ nl) ::
               Py.readlines (text ["CDS:4289"; "rRNA:22"; "tRNA:86"]) ->
        no_minus line) ->
     0 <= z).
Proof.
  eapply (C7_counts_are_integers 4300 report_K12 fresh _ _ _ _ _
            "CDS" (VInt 4289) eq_refl eq_refl).
  - vm_compute. reflexivity.
  - vm_compute. reflexivity.
  - discriminate.
Defined.

(** C8: the categories handed to the bar chart are [CDS], [rRNA], [tRNA],
    [tmRNA], [misc_RNA] and [sig_peptide], in this order; [contigs] and
    [bases] are not among them.  [prokka_barplot] hands the same categories
    on whatever the table holds: it builds them without reading a
    record. *)
Theorem C8_barplot_categories :
  OD.keys barplot_keys =
    ["CDS"; "rRNA"; "tRNA"; "tmRNA"; "misc_RNA"; "sig_peptide"] /\
  ("contigs" ∉ OD.keys barplot_keys) /\
  ("bases" ∉ OD.keys barplot_keys) /\
  forall bargraph_html st,
    prokka_barplot bargraph_html st =
    (Ok (bargraph_html (prokka st) barplot_keys barplot_pconfig),
     State (prokka st) (intro st) (log st)
       (calls st ++ [bargraph_plot (prokka st) barplot_keys barplot_pconfig])).
Proof.
  assert (K : OD.keys barplot_keys =
              ["CDS"; "rRNA"; "tRNA"; "tmRNA"; "misc_RNA"; "sig_peptide"])
    by reflexivity.
  split; [exact K|]. rewrite K.
  split; [|split; [|reflexivity]];
    rewrite !elem_of_cons, elem_of_nil; intuition discriminate.
Qed.

(** C9: the columns of the general table are declared in the order
    [organism], [bases], [CDS], [tRNA], [rRNA], [tmRNA], [sig_peptide], and
    [contigs] is not one of them; yet when [__init__] returns, the table
    that it has handed on with these columns holds [contigs] in every
    record. *)
Theorem C9_general_stats_columns :
  OD.keys general_stats_headers =
    ["organism"; "bases"; "CDS"; "tRNA"; "rRNA"; "tmRNA"; "sig_peptide"] /\
  ("contigs" ∉ OD.keys general_stats_headers) /\
  forall max_str_digits analysis_dir bargraph_html files st st',
    init max_str_digits analysis_dir bargraph_html files st = (Ok tt, st') ->
    calls st' =
      (calls st ++
         [write_data_file (prokka st') "multiqc_prokka";
          general_stats_addcols (prokka st') general_stats_headers;
          bargraph_plot (prokka st') barplot_keys barplot_pconfig])%list /\
    forall s_name r, prokka st' !! s_name = Some r -> is_Some (r !! "contigs").
Proof.
  assert (K : OD.keys general_stats_headers =
    ["organism"; "bases"; "CDS"; "tRNA"; "rRNA"; "tmRNA"; "sig_peptide"])
    by reflexivity.
  split; [exact K|]. rewrite K.
  split; [rewrite !elem_of_cons, elem_of_nil; intuition discriminate|].
  intros m dir html files st st'. rewrite init_run.
  destruct (for_each files _ _) as [res st2] eqn:E.
  destruct (for_each_parse_prokka m files _ _ _ E)
    as (_ & _ & I3 & _ & _ & _ & I7).
  destruct res as [[]|e]; [|discriminate]. cbv zeta.
  destruct (size (prokka st2) =? 0)%nat; [discriminate|].
  intros [= <-]. cbn [calls prokka]. rewrite I3. split; [reflexivity|].
  intros s r Hr.
  apply (I7 eq_refl (map_Forall_empty _) s r Hr).
Qed.

Lemma C9_general_stats_columns_witness :
  calls (snd (init 4300 "." (fun _ _ _ => "") [report_K12] fresh)) =
    (calls fresh ++
       [write_data_file
          (prokka (snd (init 4300 "." (fun _ _ _ => "") [report_K12] fresh)))
          "multiqc_prokka";
        general_stats_addcols
          (prokka (snd (init 4300 "." (fun _ _ _ => "") [report_K12] fresh)))
          general_stats_headers;
        bargraph_plot
          (prokka (snd (init 4300 "." (fun _ _ _ => "") [report_K12] fresh)))
          barplot_keys barplot_pconfig])%list /\
  forall s_name r,
    prokka (snd (init 4300 "." (fun _ _ _ => "") [report_K12] fresh))
      !! s_name = Some r ->
    is_Some (r !! "contigs").
Proof.
  assert (E : init 4300 "." (fun _ _ _ => "") [report_K12] fresh =
              (Ok tt, snd (init 4300 "." (fun _ _ _ => "") [report_K12] fresh)))
    by (vm_compute; reflexivity).
  exact (proj2 (proj2 C9_general_stats_columns) _ _ _ _ _ _ E).
Defined.

(** C10: a remaining line that splits into the name [d] and a text that
    [int] takes as [z] stores [z] under [d], whatever [d] is: over the
    value that the first three lines gave when [d] is [organism], [contigs]
    or [bases], and under the name as it stands in the line, white space
    and all.  The record keeps [z] to the end when no later line starts
    with [d:]; every other field is left alone by the line. *)
Theorem C10_redefined max_str_digits f st l1 l2 l3 rest pre line post d v z :
  read_head f = (l1, l2, l3, rest) ->
  recognized l1 l2 l3 = true ->
  is_Some (count_of max_str_digits l2) ->
  is_Some (count_of max_str_digits l3) ->
  Py.readlines rest = (pre ++ line :: post)%list ->
  (forall l, l ∈ pre -> exists d' v', Py.split ":" None l = [d'; v']) ->
  Py.split ":" None line = [d; v] ->
  Py.int max_str_digits v = Some z ->
  (forall l, l ∈ post -> Py.startswith l (d ++ ":") = false) ->
  (exists res st' r,
     parse_prokka max_str_digits f st = (res, st') /\
     prokka st' !! spec_sample_id l1 = Some r /\
     r !! d = Some (VInt z)) /\
  (forall s_name q st0, prokka st0 !! s_name = Some q ->
     parse_line max_str_digits s_name line st0 =
     (Ok tt, filled st0 s_name (<[d := VInt z]> q) []) /\
     forall k, k <> d -> <[d := VInt z]> q !! k = q !! k).
Proof.
  intros Hh Hr [c Hc] [b Hb] Hl Hpre Hs Hz Hpost. split.
  - rewrite (parse_prokka_view _ _ _ _ _ _ _ Hh), Hr.
    unfold body_view. rewrite Hc, Hb, Hl, scan_lines_app.
    match goal with
    | |- context [scan_lines _ pre ?q] =>
        destruct (scan_lines_ok max_str_digits pre q Hpre) as (r1 & lg1 & ->)
    end.
    cbn [scan_lines]. rewrite Hs, Hz.
    destruct (scan_lines max_str_digits post _) as [[res r2] lg2] eqn:E.
    exists res. eexists. exists r2. split; [reflexivity|].
    split; [apply lookup_insert_eq|].
    rewrite (scan_lines_keep _ d _ _ _ _ _ E Hpost). apply lookup_insert_eq.
  - intros s_name q st0 Hq. split.
    + now rewrite (parse_line_run _ _ _ q _ Hq), Hs, Hz.
    + intros k Hk. now apply lookup_insert_ne.
Qed.

Lemma C10_redefined_witness :
  (exists res st' r,
     parse_prokka 4300 report_redefined fresh = (res, st') /\
     prokka st' !! spec_sample_id line_K12 = Some r /\
     r !! "organism" = Some (VInt 7)) /\
  (forall s_name q st0, prokka st0 !! s_name = Some q ->
     parse_line 4300 s_name ("organism:7" ++ nl) st0 =
     (Ok tt, filled st0 s_name (<["organism" := VInt 7]> q) []) /\
     forall k, k <> "organism" -> <["organism" := VInt 7]> q !! k = q !! k).
Proof.
  apply (C10_redefined 4300 report_redefined fresh
           line_K12 ("contigs: 5" ++ nl) ("bases: 4641652" ++ nl)
           (text ["organism:7"; " CDS:5"])
           [] ("organism:7" ++ nl) [" CDS:5" ++ nl] "organism" ("7" ++ nl) 7).
  - reflexivity.
  - reflexivity.
  - exists 5. reflexivity.
  - exists 4641652. reflexivity.
  - reflexivity.
  - intros l Hl. inversion Hl.
  - reflexivity.
  - reflexivity.
  - intros l Hl. apply list_elem_of_singleton in Hl as ->. reflexivity.
Defined.

(** The name of a field is the text before the colon as it stands: the
    line [ CDS:5] fills the field [ CDS], and no field [CDS]. *)
Example field_name_verbatim :
  forall r,
    prokka (snd (parse_prokka 4300 report_redefined fresh))
      !! "strain K12_sample1" = Some r ->
    r !! " CDS" = Some (VInt 5) /\ r !! "CDS" = None /\
    r !! "organism" = Some (VInt 7).
Proof.
  intros r. rewrite run_redefined. cbn [snd prokka].
  rewrite lookup_singleton_eq. intros [= <-].
  repeat split; vm_compute; reflexivity.
Qed.

(** ** Further properties of the module *)

Section Further.

Variable max_str_digits : nat.

(** [parse_prokka] on a file, by the names of this part. *)
Lemma parse_prokka_file f st :
  parse_prokka max_str_digits f st =
  if passes_gate f then
    let '(res, r, lg) := file_view max_str_digits f in
    (res, filled st (sample_name f) r (file_log f ++ lg))
  else (Ok tt, st).
Proof.
  destruct (read_head f) as [[[l1 l2] l3] rest] eqn:Hh.
  rewrite (parse_prokka_view _ _ _ _ _ _ _ Hh).
  unfold passes_gate, file_view, sample_name, file_log. now rewrite Hh.
Qed.

Lemma file_view_res f res r lg :
  file_view max_str_digits f = (res, r, lg) ->
  res = Ok tt \/ res = Raise ValueError.
Proof.
  unfold file_view. destruct (read_head f) as [[[l1 l2] l3] rest].
  apply body_view_res.
Qed.

(** The loop returns exactly when every line has two pieces. *)
Lemma scan_lines_ok_iff lines : forall r,
  fst (fst (scan_lines max_str_digits lines r)) = Ok tt <->
  Forall two_pieces lines.
Proof.
  induction lines as [|line lines IH]; intros r; cbn [scan_lines].
  - split; [constructor|reflexivity].
  - rewrite Forall_cons.
    destruct (Py.split ":" None line) as [|d [|v [|x xs]]] eqn:E;
      try (cbn [fst]; split;
           [discriminate
           |intros [(d' & v' & H) _]; rewrite E in H; discriminate H]).
    assert (T : two_pieces line) by (exists d, v; exact E).
    destruct (Py.int max_str_digits v) as [z|].
    + rewrite IH. tauto.
    + specialize (IH r).
      destruct (scan_lines max_str_digits lines r) as [[res r'] lg].
      cbn [fst] in *. rewrite IH. tauto.
Qed.

(** What a loop that returns has logged: the lines with a value that is
    no number, in their order. *)
Lemma scan_lines_log lines : forall r r' lg,
  scan_lines max_str_digits lines r = (Ok tt, r', lg) ->
  lg = map unable (List.filter (bad_value max_str_digits) lines).
Proof.
  induction lines as [|line lines IH]; intros r r' lg; cbn [scan_lines List.filter].
  - now intros [= _ <-].
  - unfold bad_value at 1.
    destruct (Py.split ":" None line) as [|d [|v [|x xs]]]; try discriminate.
    destruct (Py.int max_str_digits v) as [z|]; [apply IH|].
    destruct (scan_lines max_str_digits lines r) as [[res r0] lg0] eqn:E.
    intros [= -> <- <-]. cbn [map]. f_equal. apply (IH _ _ _ E).
Qed.

Lemma readlines_unfold b :
  Py.readlines b =
  match b with
  | EmptyString => []
  | _ => fst (Py.readline b) :: Py.readlines (snd (Py.readline b))
  end.
Proof.
  induction b as [|c b IH]; [reflexivity|]. cbn [Py.readlines Py.readline].
  destruct (Ascii.eqb c "010"); [reflexivity|]. rewrite IH.
  destruct b as [|c' b']; [reflexivity|].
  now destruct (Py.readline (String c' b')) as [l r].
Qed.

Lemma readlines_nil b : Py.readlines b = [] -> b = EmptyString.
Proof. rewrite readlines_unfold. now destruct b. Qed.

(** A file of fewer than three lines does not pass the test. *)
Lemma short_file_gate f :
  (List.length (Py.readlines (contents f)) < 3)%nat -> passes_gate f = false.
Proof.
  unfold passes_gate, read_head. intros H.
  rewrite readlines_unfold in H.
  destruct (contents f) as [|c0 b0] eqn:E0; [reflexivity|].
  destruct (Py.readline (String c0 b0)) as [l1 b1].
  cbn [fst snd List.length] in H.
  rewrite readlines_unfold in H.
  destruct b1 as [|c1 b1'].
  { cbn. unfold recognized. cbn. now rewrite andb_false_r. }
  destruct (Py.readline (String c1 b1')) as [l2 b2].
  cbn [fst snd List.length] in H.
  assert (Hb : b2 = EmptyString).
  { apply readlines_nil. destruct (Py.readlines b2); [reflexivity|].
    cbn [List.length] in H. lia. }
  subst b2. cbn. unfold recognized. cbn. now rewrite !andb_false_r.
Qed.

(** *** Tokens *)

Lemma str_app_nil_r (w : string) : w ++ "" = w.
Proof.
  induction w as [|c w IH]; [reflexivity|].
  change (String c (w ++ "") = String c w). now rewrite IH.
Qed.

(** A token in front of white space is the first token of the text. *)
Lemma split_ws_token_app w : forall c t,
  Py.isspace c = false -> no_white w = true -> Py.starts_white t = true ->
  Py.split_ws (String c (w ++ t)) = String c w :: Py.split_ws t.
Proof.
  induction w as [|c' w IH]; intros c t Hc Hw Ht.
  - change ("" ++ t) with t. cbn [Py.split_ws]. now rewrite Hc, Ht.
  - change (String c' w ++ t) with (String c' (w ++ t)).
    cbn [no_white] in Hw. apply andb_true_iff in Hw as [Hc' Hw].
    apply negb_true_iff in Hc'.
    change (Py.split_ws (String c (String c' (w ++ t))))
      with (if Py.isspace c then Py.split_ws (String c' (w ++ t))
            else if Py.starts_white (String c' (w ++ t))
                 then String c "" :: Py.split_ws (String c' (w ++ t))
                 else Py.cons_head c (Py.split_ws (String c' (w ++ t)))).
    rewrite Hc. cbn [Py.starts_white]. rewrite Hc'.
    now rewrite (IH c' t Hc' Hw Ht).
Qed.

Lemma split_ws_token w t :
  is_token w = true -> Py.starts_white t = true ->
  Py.split_ws (w ++ t) = w :: Py.split_ws t.
Proof.
  destruct w as [|c w]; [discriminate|]. cbn [is_token no_white].
  intros [Hc Hw]%andb_true_iff Ht. apply negb_true_iff in Hc.
  change (String c w ++ t) with (String c (w ++ t)).
  now apply split_ws_token_app.
Qed.

(** What [split] without argument gives are tokens. *)
Lemma split_ws_tokens s : Forall (fun w => is_token w = true) (Py.split_ws s).
Proof.
  induction s as [|c s IH]; [constructor|]. cbn [Py.split_ws].
  destruct (Py.isspace c) eqn:Hc; [exact IH|].
  destruct (Py.starts_white s).
  - constructor; [|exact IH]. cbn. now rewrite Hc.
  - destruct (Py.split_ws s) as [|w ws]; cbn [Py.cons_head].
    + constructor; [|constructor]. cbn. now rewrite Hc.
    + apply Forall_cons in IH as [Hw Hws]. constructor; [|exact Hws].
      cbn [is_token no_white]. rewrite Hc. cbn [negb andb].
      now destruct w.
Qed.

(** Tokens joined by a space and split again are the same tokens. *)
Lemma split_ws_join l :
  Forall (fun w => is_token w = true) l ->
  Py.split_ws (Py.join " " l) = l.
Proof.
  unfold Py.join. induction l as [|w l IH]; [reflexivity|].
  intros [Hw Hl]%Forall_cons. specialize (IH Hl).
  destruct l as [|w2 l].
  - cbn [String.concat]. rewrite <- (str_app_nil_r w) at 1.
    now rewrite (split_ws_token w "" Hw).
  - change (String.concat " " (w :: w2 :: l))
      with (w ++ String " " (String.concat " " (w2 :: l))).
    rewrite (split_ws_token w _ Hw) by reflexivity.
    rewrite split_ws_cons_white by reflexivity. now rewrite IH.
Qed.

(** On a file that passes the test the buffers of the three [readline]
    are not empty. *)
Lemma startswith_nonempty s p :
  p <> EmptyString -> Py.startswith s p = true -> s <> EmptyString.
Proof. destruct p; [easy|]. now destruct s. Qed.

(** A text without colon in front of a colon is the first piece. *)
Lemma split_first_piece d t :
  (forall c, In c (list_ascii_of_string d) -> c <> ":"%char) ->
  Py.split ":" None (d ++ String ":" t) = d :: Py.split ":" None t.
Proof.
  intros Hd. induction d as [|c d IH].
  - change ("" ++ String ":" t) with (String ":" t). reflexivity.
  - change (String c d ++ String ":" t) with (String c (d ++ String ":" t)).
    cbn [Py.split]. destruct (Ascii.eqb_spec c ":") as [->|_].
    + exfalso. apply (Hd ":"%char); [now left|reflexivity].
    + rewrite IH; [reflexivity|]. intros c' Hc'. apply Hd. now right.
Qed.

(** *** The loop over the files *)

Lemma for_each_app {A} (l1 l2 : list A) body st :
  for_each (l1 ++ l2) body st =
  match for_each l1 body st with
  | (Ok _, st1) => for_each l2 body st1
  | (Raise e, st1) => (Raise e, st1)
  end.
Proof.
  revert st. induction l1 as [|x l1 IH]; intros st; [reflexivity|].
  cbn [for_each app]. rewrite !bind_run.
  destruct (body x st) as [[[]|e] st0]; [apply IH|reflexivity].
Qed.

(** How a call of [parse_prokka] ends does not hang on the state. *)
Lemma parse_prokka_fst f st st0 :
  fst (parse_prokka max_str_digits f st) =
  fst (parse_prokka max_str_digits f st0).
Proof.
  rewrite !parse_prokka_file. destruct (passes_gate f); [|reflexivity].
  now destruct (file_view max_str_digits f) as [[res r] lg].
Qed.

(** Nor does the record it leaves under the sample name. *)
Lemma parse_prokka_record f st st0 :
  passes_gate f = true ->
  prokka (snd (parse_prokka max_str_digits f st)) !! sample_name f =
  prokka (snd (parse_prokka max_str_digits f st0)) !! sample_name f.
Proof.
  intros Hg. rewrite !parse_prokka_file, Hg.
  destruct (file_view max_str_digits f) as [[res r] lg].
  cbn [snd filled prokka]. now rewrite !lookup_insert_eq.
Qed.

Lemma parse_prokka_other f st k :
  (passes_gate f = true -> sample_name f <> k) ->
  prokka (snd (parse_prokka max_str_digits f st)) !! k = prokka st !! k.
Proof.
  intros Hk. rewrite parse_prokka_file.
  destruct (passes_gate f); [|reflexivity].
  destruct (file_view max_str_digits f) as [[res r] lg].
  cbn [snd filled prokka]. apply lookup_insert_ne. now apply Hk.
Qed.

Lemma parse_prokka_is_Some f st k :
  is_Some (prokka (snd (parse_prokka max_str_digits f st)) !! k) <->
  is_Some (prokka st !! k) \/ (passes_gate f = true /\ sample_name f = k).
Proof.
  rewrite parse_prokka_file. destruct (passes_gate f).
  - destruct (file_view max_str_digits f) as [[res r] lg].
    cbn [snd filled prokka]. rewrite lookup_insert_is_Some.
    destruct (decide (sample_name f = k)); intuition congruence.
  - cbn [snd]. intuition discriminate.
Qed.

Lemma parse_prokka_size f st :
  (size (prokka (snd (parse_prokka max_str_digits f st))) <=
   size (prokka st) + (if passes_gate f then 1 else 0))%nat.
Proof.
  rewrite parse_prokka_file. destruct (passes_gate f); [|cbn [snd]; lia].
  destruct (file_view max_str_digits f) as [[res r] lg].
  cbn [snd filled prokka]. rewrite map_size_insert.
  destruct (prokka st !! sample_name f); cbn; lia.
Qed.

(** One step of the loop. *)
Lemma for_each_cons files f st :
  for_each (f :: files) (parse_prokka max_str_digits) st =
  match fst (parse_prokka max_str_digits f st) with
  | Ok _ =>
      for_each files (parse_prokka max_str_digits)
        (snd (parse_prokka max_str_digits f st))
  | Raise e => (Raise e, snd (parse_prokka max_str_digits f st))
  end.
Proof.
  cbn [for_each]. rewrite bind_run.
  now destruct (parse_prokka max_str_digits f st) as [[[]|e] st1].
Qed.

(** The files of other sample names leave a record alone. *)
Lemma loop_other files : forall st k,
  (forall g, g ∈ files -> passes_gate g = true -> sample_name g <> k) ->
  prokka (snd (for_each files (parse_prokka max_str_digits) st)) !! k =
  prokka st !! k.
Proof.
  induction files as [|f files IH]; intros st k Hk; [reflexivity|].
  rewrite for_each_cons.
  assert (Hf : prokka (snd (parse_prokka max_str_digits f st)) !! k =
               prokka st !! k).
  { apply parse_prokka_other. apply Hk. left. }
  destruct (fst (parse_prokka max_str_digits f st)) as [[]|e]; [|exact Hf].
  rewrite IH; [exact Hf|]. intros g Hg. apply Hk. now right.
Qed.

(** The sample names in the table after a loop that returns. *)
Lemma loop_is_Some files : forall st st' k,
  for_each files (parse_prokka max_str_digits) st = (Ok tt, st') ->
  (is_Some (prokka st' !! k) <->
   is_Some (prokka st !! k) \/
   exists f, f ∈ files /\ passes_gate f = true /\ sample_name f = k).
Proof.
  induction files as [|f files IH]; intros st st' k.
  - intros [= <-]. split; [now left|].
    intros [H|(f & Hf & _)]; [exact H|inversion Hf].
  - rewrite for_each_cons.
    pose proof (parse_prokka_is_Some f st k) as Hf.
    destruct (fst (parse_prokka max_str_digits f st)) as [[]|e];
      [|discriminate].
    intros H. rewrite (IH _ _ k H), Hf. split.
    + intros [[H1|[H1 H2]]|(g & Hg & H1 & H2)].
      * now left.
      * right. exists f. split; [left|easy].
      * right. exists g. split; [now right|easy].
    + intros [H1|(g & Hg & H1 & H2)]; [now do 2 left|].
      apply elem_of_cons in Hg as [->|Hg]; [left; now right|].
      right. now exists g.
Qed.

Lemma loop_size files : forall st,
  (size (prokka (snd (for_each files (parse_prokka max_str_digits) st))) <=
   size (prokka st) + List.length (List.filter passes_gate files))%nat.
Proof.
  induction files as [|f files IH]; intros st; [cbn; lia|].
  rewrite for_each_cons. pose proof (parse_prokka_size f st) as Hf.
  cbn [List.filter].
  destruct (fst (parse_prokka max_str_digits f st)) as [[]|e].
  - specialize (IH (snd (parse_prokka max_str_digits f st))).
    destruct (passes_gate f); cbn [List.length]; lia.
  - cbn [snd]. destruct (passes_gate f); cbn [List.length]; lia.
Qed.

(** A loop over files that all return, returns. *)
Lemma loop_returns files : forall st,
  (forall g, g ∈ files ->
     fst (parse_prokka max_str_digits g fresh) = Ok tt) ->
  fst (for_each files (parse_prokka max_str_digits) st) = Ok tt.
Proof.
  induction files as [|f files IH]; intros st H; [reflexivity|].
  rewrite for_each_cons, (parse_prokka_fst f st fresh), (H f) by left.
  apply IH. intros g Hg. apply H. now right.
Qed.

End Further.

(** X1: [parse_prokka] works on one record.  Whatever the file and
    however the call ends, the records of the other sample names are what
    they were, [intro] and the calls made so far are untouched, and the
    log has only grown at its end. *)
Theorem X1_parse_frame max_str_digits f st :
  intro (snd (parse_prokka max_str_digits f st)) = intro st /\
  calls (snd (parse_prokka max_str_digits f st)) = calls st /\
  (exists lg, log (snd (parse_prokka max_str_digits f st))
              = (log st ++ lg)%list) /\
  forall k, k <> sample_name f ->
    prokka (snd (parse_prokka max_str_digits f st)) !! k = prokka st !! k.
Proof.
  rewrite parse_prokka_file. destruct (passes_gate f).
  - destruct (file_view max_str_digits f) as [[res r] lg].
    cbn [snd filled intro calls log prokka].
    do 2 (split; [reflexivity|]). split; [eauto|].
    intros k Hk. now apply lookup_insert_ne.
  - cbn [snd]. do 2 (split; [reflexivity|]).
    split; [exists []; now rewrite app_nil_r|reflexivity].
Qed.

Lemma X1_parse_frame_witness :
  prokka (snd (parse_prokka 4300 report_K12
                 (snd (parse_prokka 4300 report_MG1655 fresh))))
    !! sample_name report_MG1655 =
  prokka (snd (parse_prokka 4300 report_MG1655 fresh))
    !! sample_name report_MG1655.
Proof.
  apply (X1_parse_frame 4300 report_K12
           (snd (parse_prokka 4300 report_MG1655 fresh))).
  vm_compute. discriminate.
Defined.

(** X2: [parse_prokka] returns or raises [ValueError], and nothing else:
    the index 1 that it takes of a split and the record that it fills are
    always there, so that no [IndexError] and no [KeyError] leaves it. *)
Theorem X2_only_value_error max_str_digits f st :
  fst (parse_prokka max_str_digits f st) = Ok tt \/
  fst (parse_prokka max_str_digits f st) = Raise ValueError.
Proof.
  rewrite parse_prokka_file. destruct (passes_gate f); [|now left].
  destruct (file_view max_str_digits f) as [[res r] lg] eqn:E.
  apply (file_view_res _ _ _ _ _ E).
Qed.

(** X3: on a file that passes the test, [parse_prokka] returns exactly
    when the second and the third line hold a number after their colon and
    every line after them has exactly one colon; otherwise it raises. *)
Theorem X3_returns_iff max_str_digits f st :
  passes_gate f = true ->
  (fst (parse_prokka max_str_digits f st) = Ok tt <->
   is_Some (count_of max_str_digits (fst (count_lines f))) /\
   is_Some (count_of max_str_digits (snd (count_lines f))) /\
   Forall two_pieces (trailing_lines f)).
Proof.
  intros Hg. rewrite parse_prokka_file, Hg.
  unfold file_view, count_lines, trailing_lines.
  destruct (read_head f) as [[[l1 l2] l3] rest]. cbn [fst snd].
  unfold body_view.
  destruct (count_of max_str_digits l2) as [c|].
  - destruct (count_of max_str_digits l3) as [b|].
    + match goal with
      | |- context [scan_lines _ _ ?q] =>
          pose proof (scan_lines_ok_iff max_str_digits (Py.readlines rest) q)
            as Hiff;
          destruct (scan_lines max_str_digits (Py.readlines rest) q)
            as [[res r] lg]
      end.
      cbn [fst] in *. rewrite Hiff. split; [eauto|tauto].
    + cbn [fst]. split; [discriminate|]. now intros (_ & [x Hx] & _).
  - cbn [fst]. split; [discriminate|]. now intros ([x Hx] & _).
Qed.

Lemma X3_returns_iff_witness :
  fst (parse_prokka 4300 report_no_colon fresh) = Ok tt <->
  is_Some (count_of 4300 (fst (count_lines report_no_colon))) /\
  is_Some (count_of 4300 (snd (count_lines report_no_colon))) /\
  Forall two_pieces (trailing_lines report_no_colon).
Proof.
  apply (X3_returns_iff 4300 report_no_colon fresh). reflexivity.
Defined.

(** X4: when [parse_prokka] returns on a file that passes the test, it
    has logged its two lines about the file and then, in their order, the
    lines whose value is no number, and nothing else. *)
Theorem X4_log_of_bad_values max_str_digits f st st' :
  passes_gate f = true ->
  parse_prokka max_str_digits f st = (Ok tt, st') ->
  log st' =
    (log st ++ file_log f ++
     map unable (List.filter (bad_value max_str_digits) (trailing_lines f)))%list.
Proof.
  intros Hg. rewrite parse_prokka_file, Hg.
  unfold file_view, trailing_lines.
  destruct (read_head f) as [[[l1 l2] l3] rest]. unfold body_view.
  destruct (count_of max_str_digits l2) as [c|]; [|discriminate].
  destruct (count_of max_str_digits l3) as [b|]; [|discriminate].
  destruct (scan_lines max_str_digits (Py.readlines rest) _)
    as [[res r] lg] eqn:E.
  intros [= -> <-]. cbn [filled log].
  now rewrite (scan_lines_log _ _ _ _ _ E).
Qed.

(** A value with the separator FS behind it is no number for [int]: the
    line is logged and left out, and [organism] keeps its text. *)
Example run_fs :
  Py.int 4300 ("7" ++ fs ++ nl) = None /\
  Py.strip ("7" ++ fs ++ nl) = "7" /\
  parse_prokka 4300 report_fs fresh =
  (Ok tt,
   State {["strain K12_sample1" := <["CDS" := VInt 4289]> head_K12]}
         ""
         (header_log report_fs line_K12 ++ [unable ("organism:7" ++ fs ++ nl)])
         []).
Proof. repeat split; vm_compute; reflexivity. Qed.

Example run_bad_value :
  parse_prokka 4300 report_bad_value fresh =
  (Ok tt,
   State {["strain K12_sample1" :=
             <["tRNA" := VInt 86]> (<["CDS" := VInt 4289]> head_K12)]}
         ""
         (header_log report_bad_value line_K12 ++
          [unable ("sig_peptide:notanumber" ++ nl)])
         []).
Proof. vm_compute. reflexivity. Qed.

Lemma X4_log_of_bad_values_witness :
  log (snd (parse_prokka 4300 report_bad_value fresh)) =
    (log fresh ++ file_log report_bad_value ++
     map unable
       (List.filter (bad_value 4300) (trailing_lines report_bad_value)))%list.
Proof.
  apply (X4_log_of_bad_values 4300 report_bad_value fresh); [reflexivity|].
  now rewrite run_bad_value.
Defined.

(** X5: the parser invents no field.  In the record that a file leaves,
    a field is [organism], [contigs] or [bases], or it is the name of one
    of the lines after the third, which holds the number stored. *)
Theorem X5_fields_come_from_lines max_str_digits f st r k v :
  passes_gate f = true ->
  prokka (snd (parse_prokka max_str_digits f st)) !! sample_name f = Some r ->
  r !! k = Some v ->
  k ∈ ["organism"; "contigs"; "bases"] \/
  exists line t z,
    line ∈ trailing_lines f /\ Py.split ":" None line = [k; t] /\
    Py.int max_str_digits t = Some z /\ v = VInt z.
Proof.
  intros Hg. rewrite parse_prokka_file, Hg.
  unfold file_view, trailing_lines.
  destruct (read_head f) as [[[l1 l2] l3] rest].
  set (P := fun q : record => forall k v, q !! k = Some v ->
    k ∈ ["organism"; "contigs"; "bases"] \/
    exists line t z,
      line ∈ Py.readlines rest /\ Py.split ":" None line = [k; t] /\
      Py.int max_str_digits t = Some z /\ v = VInt z).
  assert (Hhead : forall q d x, d ∈ ["organism"; "contigs"; "bases"] ->
            P q -> P (<[d := x]> q)).
  { intros q d x Hd Hq k' v'. rewrite lookup_insert.
    case_decide; [subst; now left|apply Hq]. }
  assert (P0 : P ∅) by (intros k' v'; now rewrite lookup_empty).
  destruct (body_view max_str_digits l1 l2 l3 rest) as [[res r0] lg] eqn:E.
  cbn [snd filled prokka]. rewrite lookup_insert_eq. intros [= <-].
  revert k v. change (P r0). unfold body_view in E.
  assert (P1 : P {["organism" := VStr (spec_organism l1)]}).
  { apply (Hhead ∅); [left|exact P0]. }
  destruct (count_of max_str_digits l2) as [c|];
    [|injection E as _ <- _; exact P1].
  assert (P2 : P (<["contigs" := VInt c]>
                    {["organism" := VStr (spec_organism l1)]})).
  { apply Hhead; [right; left|exact P1]. }
  destruct (count_of max_str_digits l3) as [b|];
    [|injection E as _ <- _; exact P2].
  apply (scan_lines_inv _ P _ _ _ _ _ E).
  - intros line d t z q Hl Hs Hz Hq k' v'. rewrite lookup_insert.
    case_decide; [|apply Hq]. intros [= <-]. subst. right.
    now exists line, t, z.
  - apply Hhead; [do 2 right; left|exact P2].
Qed.

Lemma X5_fields_come_from_lines_witness :
  "rRNA" ∈ ["organism"; "contigs"; "bases"] \/
  exists line t z,
    line ∈ trailing_lines report_K12 /\ Py.split ":" None line = ["rRNA"; t] /\
    Py.int 4300 t = Some z /\ VInt 22 = VInt z.
Proof.
  eapply (X5_fields_come_from_lines 4300 report_K12 fresh _ "rRNA" (VInt 22)).
  - reflexivity.
  - rewrite run_K12. cbn [snd prokka].
    change (sample_name report_K12) with "strain K12_sample1".
    apply lookup_singleton_eq.
  - vm_compute. reflexivity.
Defined.

(** X6: to read a file a second time changes nothing in the table: the
    record of its sample is made anew and comes out the same. *)
Theorem X6_parse_twice max_str_digits f st :
  prokka (snd (parse_prokka max_str_digits f
                 (snd (parse_prokka max_str_digits f st)))) =
  prokka (snd (parse_prokka max_str_digits f st)).
Proof.
  rewrite !parse_prokka_file. destruct (passes_gate f); [|reflexivity].
  destruct (file_view max_str_digits f) as [[res r] lg].
  cbn [snd filled prokka]. apply insert_insert_eq.
Qed.

(** X7: two files of different sample names can be read in either order:
    the table is the same. *)
Theorem X7_parse_commute max_str_digits f1 f2 st :
  sample_name f1 <> sample_name f2 ->
  prokka (snd (parse_prokka max_str_digits f2
                 (snd (parse_prokka max_str_digits f1 st)))) =
  prokka (snd (parse_prokka max_str_digits f1
                 (snd (parse_prokka max_str_digits f2 st)))).
Proof.
  intros Hne. rewrite !parse_prokka_file.
  destruct (passes_gate f1), (passes_gate f2);
    destruct (file_view max_str_digits f1) as [[res1 r1] lg1];
    destruct (file_view max_str_digits f2) as [[res2 r2] lg2];
    cbn [snd filled prokka]; try reflexivity.
  now apply insert_insert_ne.
Qed.

Lemma X7_parse_commute_witness :
  prokka (snd (parse_prokka 4300 report_MG1655
                 (snd (parse_prokka 4300 report_K12 fresh)))) =
  prokka (snd (parse_prokka 4300 report_K12
                 (snd (parse_prokka 4300 report_MG1655 fresh)))).
Proof.
  apply (X7_parse_commute 4300 report_K12 report_MG1655 fresh).
  vm_compute. discriminate.
Defined.

(** X8: a file of fewer than three lines, the empty file among them, is
    not taken: [parse_prokka] returns and the state is what it was. *)
Theorem X8_short_file_rejected max_str_digits f st :
  (List.length (Py.readlines (contents f)) < 3)%nat ->
  parse_prokka max_str_digits f st = (Ok tt, st).
Proof.
  intros H. rewrite parse_prokka_file. now rewrite (short_file_gate f H).
Qed.

Lemma X8_short_file_rejected_witness :
  parse_prokka 4300 report_two_lines fresh = (Ok tt, fresh).
Proof.
  apply (X8_short_file_rejected 4300 report_two_lines fresh).
  vm_compute. lia.
Defined.

(** X9: when [__init__] does not return it has raised [ValueError] or
    [UserWarning], and it has handed nothing on: no data file is written,
    no column and no plot is made, [intro] is as before. *)
Theorem X9_init_failure_makes_no_call
  max_str_digits analysis_dir bargraph_html files st :
  fst (init max_str_digits analysis_dir bargraph_html files st) = Ok tt \/
  ((fst (init max_str_digits analysis_dir bargraph_html files st)
      = Raise ValueError \/
    fst (init max_str_digits analysis_dir bargraph_html files st)
      = Raise UserWarning) /\
   calls (snd (init max_str_digits analysis_dir bargraph_html files st))
     = calls st /\
   intro (snd (init max_str_digits analysis_dir bargraph_html files st))
     = intro st).
Proof.
  rewrite init_run.
  destruct (for_each files _ _) as [res st2] eqn:E.
  destruct (for_each_parse_prokka max_str_digits files _ _ _ E)
    as (I1 & I2 & I3 & _).
  cbn [intro calls] in I2, I3.
  destruct I1 as [-> | ->].
  - cbv zeta. destruct (size (prokka st2) =? 0)%nat; [right|now left].
    cbn [fst snd calls intro]. split; [now right|easy].
  - right. cbn [fst snd]. split; [now left|easy].
Qed.

(** X10: when [__init__] returns, the table that it hands on has a record
    for a name exactly when this is the sample name of one of the files
    that pass the test. *)
Theorem X10_table_names max_str_digits analysis_dir bargraph_html files st st' k :
  init max_str_digits analysis_dir bargraph_html files st = (Ok tt, st') ->
  (is_Some (prokka st' !! k) <->
   exists f, f ∈ files /\ passes_gate f = true /\ sample_name f = k).
Proof.
  rewrite init_run.
  destruct (for_each files _ _) as [[[]|e] st2] eqn:E; [|discriminate].
  cbv zeta. destruct (size (prokka st2) =? 0)%nat; [discriminate|].
  intros [= <-]. cbn [prokka].
  rewrite (loop_is_Some max_str_digits files _ _ k E). cbn [prokka].
  rewrite lookup_empty. split; [|now right].
  intros [[x Hx]|H]; [discriminate|exact H].
Qed.

Lemma X10_table_names_witness :
  is_Some (prokka (snd (init 4300 "." (fun _ _ _ => "")
                          [report_capital; report_K12] fresh))
             !! "strain K12_sample1") <->
  exists f, f ∈ [report_capital; report_K12] /\ passes_gate f = true /\
            sample_name f = "strain K12_sample1".
Proof.
  apply (X10_table_names 4300 "." (fun _ _ _ => "")
           [report_capital; report_K12] fresh).
  vm_compute. reflexivity.
Defined.

(** X11: of the files of one sample name, the last in the collection
    decides: when [__init__] returns, the record under the sample name of a
    file that no later file shares is the record that this file gives by
    itself. *)
Theorem X11_last_file_wins
  max_str_digits analysis_dir bargraph_html pre f post st st' st0 :
  init max_str_digits analysis_dir bargraph_html (pre ++ f :: post) st
    = (Ok tt, st') ->
  passes_gate f = true ->
  (forall g, g ∈ post -> passes_gate g = true ->
     sample_name g <> sample_name f) ->
  prokka st' !! sample_name f =
  prokka (snd (parse_prokka max_str_digits f st0)) !! sample_name f.
Proof.
  rewrite init_run.
  destruct (for_each (pre ++ f :: post) _ _) as [[[]|e] st2] eqn:E;
    [|discriminate].
  cbv zeta. destruct (size (prokka st2) =? 0)%nat; [discriminate|].
  intros [= <-] Hg Hpost. cbn [prokka].
  rewrite for_each_app in E.
  destruct (for_each pre _ _) as [[[]|e] sa]; [|discriminate].
  rewrite for_each_cons in E.
  destruct (fst (parse_prokka max_str_digits f sa)) as [[]|e];
    [|discriminate].
  replace st2 with (snd (for_each post (parse_prokka max_str_digits)
                           (snd (parse_prokka max_str_digits f sa))))
    by now rewrite E.
  rewrite (loop_other max_str_digits post _ _ Hpost).
  now apply parse_prokka_record.
Qed.

Lemma X11_last_file_wins_witness :
  prokka (snd (init 4300 "." (fun _ _ _ => "")
                 ([report_K12] ++ report_K12_again :: [report_MG1655]) fresh))
    !! sample_name report_K12_again =
  prokka (snd (parse_prokka 4300 report_K12_again fresh))
    !! sample_name report_K12_again.
Proof.
  apply (X11_last_file_wins 4300 "." (fun _ _ _ => "")
           [report_K12] report_K12_again [report_MG1655] fresh _ fresh).
  - vm_compute. reflexivity.
  - reflexivity.
  - intros g Hg _. apply list_elem_of_singleton in Hg as ->.
    vm_compute. discriminate.
Defined.

(** X12: the number that [__init__] logs as found is the number of
    records of the table, that is of sample names: it is at least one and
    at most the number of files that pass the test. *)
Theorem X12_found_count
  max_str_digits analysis_dir bargraph_html files st st' :
  init max_str_digits analysis_dir bargraph_html files st = (Ok tt, st') ->
  LogRecord INFO "Found {} logs" [VInt (Z.of_nat (size (prokka st')))]
    ∈ log st' /\
  (1 <= size (prokka st') <= List.length (List.filter passes_gate files))%nat.
Proof.
  rewrite init_run.
  pose proof (loop_size max_str_digits files
                (State ∅ (intro st) (log st) (calls st))) as Hs.
  destruct (for_each files _ _) as [[[]|e] st2]; [|discriminate].
  cbv zeta. destruct (size (prokka st2) =? 0)%nat eqn:E0; [discriminate|].
  intros [= <-]. cbn [prokka log snd] in *.
  split; [rewrite elem_of_app; right; left|].
  apply Nat.eqb_neq in E0. rewrite map_size_empty in Hs. lia.
Qed.

Lemma X12_found_count_witness :
  LogRecord INFO "Found {} logs"
    [VInt (Z.of_nat (size (prokka
       (snd (init 4300 "." (fun _ _ _ => "")
               [report_K12; report_capital; report_K12_again] fresh)))))]
    ∈ log (snd (init 4300 "." (fun _ _ _ => "")
                  [report_K12; report_capital; report_K12_again] fresh)) /\
  (1 <= size (prokka
       (snd (init 4300 "." (fun _ _ _ => "")
               [report_K12; report_capital; report_K12_again] fresh)))
     <= List.length (List.filter passes_gate
          [report_K12; report_capital; report_K12_again]))%nat.
Proof.
  apply (X12_found_count 4300 "." (fun _ _ _ => "")
           [report_K12; report_capital; report_K12_again] fresh).
  vm_compute. reflexivity.
Defined.

(** X13: [__init__] stops at the first file on which [parse_prokka]
    raises: it raises [ValueError] itself, and the files behind that one
    are not read, so that they change nothing in what [__init__] leaves. *)
Theorem X13_init_stops_at_first_raise
  max_str_digits analysis_dir bargraph_html pre f post st :
  (forall g, g ∈ pre -> fst (parse_prokka max_str_digits g fresh) = Ok tt) ->
  fst (parse_prokka max_str_digits f fresh) = Raise ValueError ->
  fst (init max_str_digits analysis_dir bargraph_html (pre ++ f :: post) st)
    = Raise ValueError /\
  init max_str_digits analysis_dir bargraph_html (pre ++ f :: post) st =
  init max_str_digits analysis_dir bargraph_html (pre ++ [f]) st.
Proof.
  intros Hpre Hf. rewrite !init_run, !for_each_app.
  pose proof (loop_returns max_str_digits pre
                (State ∅ (intro st) (log st) (calls st)) Hpre) as Hp.
  destruct (for_each pre _ _) as [[[]|e] sa]; [|discriminate].
  rewrite !for_each_cons, (parse_prokka_fst max_str_digits f sa fresh), Hf.
  split; reflexivity.
Qed.

Lemma X13_init_stops_at_first_raise_witness :
  fst (init 4300 "." (fun _ _ _ => "")
         ([report_K12] ++ report_no_colon :: [report_MG1655]) fresh)
    = Raise ValueError /\
  init 4300 "." (fun _ _ _ => "")
    ([report_K12] ++ report_no_colon :: [report_MG1655]) fresh =
  init 4300 "." (fun _ _ _ => "") ([report_K12] ++ [report_no_colon]) fresh.
Proof.
  apply (X13_init_stops_at_first_raise 4300 "." (fun _ _ _ => "")
           [report_K12] report_no_colon [report_MG1655] fresh).
  - intros g Hg. apply list_elem_of_singleton in Hg as ->.
    now rewrite run_K12.
  - now rewrite run_no_colon.
Defined.



(** X15: when white space follows the colon of the first line, the
    organism and the sample name share out the words behind the colon: the
    organism has the first two, the sample name all the others, and no
    word is left out or taken twice. *)
Theorem X15_first_line_shared_out t :
  Py.starts_white t = true ->
  (Py.split_ws (spec_organism ("organism:" ++ t)) ++
   Py.split_ws (s_name_of ("organism:" ++ t)))%list = Py.split_ws t.
Proof.
  intros Ht.
  assert (Hl : Py.split_ws ("organism:" ++ t) = "organism:" :: Py.split_ws t)
    by now apply split_ws_token.
  unfold spec_organism, s_name_of, Py.slice_from.
  rewrite !split_ws_join
    by (apply Forall_take || apply Forall_drop; apply split_ws_tokens).
  rewrite Hl.
  assert (Ha : after_first_colon ("organism:" ++ t) = t) by reflexivity.
  rewrite Ha. change (drop 3 ("organism:" :: Py.split_ws t))
    with (drop 2 (Py.split_ws t)).
  apply take_drop.
Qed.

Lemma X15_first_line_shared_out_witness :
  (Py.split_ws (spec_organism
      ("organism:" ++ " Escherichia coli strain K12_sample1" ++ nl)) ++
   Py.split_ws (s_name_of
      ("organism:" ++ " Escherichia coli strain K12_sample1" ++ nl)))%list
  = Py.split_ws (" Escherichia coli strain K12_sample1" ++ nl).
Proof.
  apply (X15_first_line_shared_out
           (" Escherichia coli strain K12_sample1" ++ nl)).
  reflexivity.
Defined.

(** A first line without a space behind the colon: the word [strain] is
    neither in the organism nor in the sample name. *)
Example no_space_after_colon :
  spec_organism ("organism:Escherichia coli strain K12_sample1" ++ nl)
    = "Escherichia coli" /\
  s_name_of ("organism:Escherichia coli strain K12_sample1" ++ nl)
    = "K12_sample1".
Proof. split; reflexivity. Qed.

(** X16: on a file that passes the test, the three lines read first and
    the lines that the loop goes through are, in this order, the lines of
    the file: none is left out and none is read twice. *)
Theorem X16_lines_read_once f l1 l2 l3 rest :
  read_head f = (l1, l2, l3, rest) ->
  recognized l1 l2 l3 = true ->
  Py.readlines (contents f) = l1 :: l2 :: l3 :: Py.readlines rest.
Proof.
  unfold read_head. intros Hh Hr.
  apply recognized_true in Hr as (H1 & H2 & H3).
  apply startswith_nonempty in H1, H2, H3; try discriminate.
  rewrite (readlines_unfold (contents f)).
  destruct (contents f) as [|c0 b0].
  { cbn in Hh. injection Hh as <- _ _ _. now destruct H1. }
  destruct (Py.readline (String c0 b0)) as [x1 b1]. cbn [fst snd].
  rewrite (readlines_unfold b1). destruct b1 as [|c1 b1'].
  { cbn in Hh. injection Hh as _ <- _ _. now destruct H2. }
  destruct (Py.readline (String c1 b1')) as [x2 b2]. cbn [fst snd].
  rewrite (readlines_unfold b2). destruct b2 as [|c2 b2'].
  { cbn in Hh. injection Hh as _ _ <- _. now destruct H3. }
  destruct (Py.readline (String c2 b2')) as [x3 b3]. cbn [fst snd].
  now injection Hh as -> -> -> ->.
Qed.

Lemma X16_lines_read_once_witness :
  Py.readlines (contents report_K12) =
  line_K12 :: ("contigs: 5" ++ nl) :: ("bases: 4641652" ++ nl) ::
  Py.readlines (text ["CDS:4289"; "rRNA:22"; "tRNA:86"]).
Proof.
  apply (X16_lines_read_once report_K12); reflexivity.
Defined.

(** X17: the second and the third line may hold more than one colon, the
    lines after them may not.  Of a line [p:v:rest] the count taken is
    [int(v)], what follows the second colon is not looked at; but the same
    line has more than two pieces, and among the remaining lines it makes
    the parser raise. *)
Theorem X17_second_colon max_str_digits p v rest :
  (forall c, In c (list_ascii_of_string p) -> c <> ":"%char) ->
  (forall c, In c (list_ascii_of_string v) -> c <> ":"%char) ->
  count_of max_str_digits (p ++ String ":" (v ++ String ":" rest))
    = Py.int max_str_digits v /\
  ~ two_pieces (p ++ String ":" (v ++ String ":" rest)) /\
  forall r, fst (fst (scan_lines max_str_digits
                        [p ++ String ":" (v ++ String ":" rest)] r))
            = Raise ValueError.
Proof.
  intros Hp Hv.
  assert (E : exists x xs,
    Py.split ":" None (p ++ String ":" (v ++ String ":" rest))
      = p :: v :: x :: xs).
  { rewrite (split_first_piece p _ Hp), (split_first_piece v _ Hv).
    destruct (Py.split ":" None rest) as [|x xs] eqn:Er;
      [now destruct (split_nonempty ":" None rest)|eauto]. }
  destruct E as (x & xs & E). unfold count_of, two_pieces.
  cbn [scan_lines]. rewrite E. split; [reflexivity|].
  split; [|reflexivity]. now intros (d' & v' & H).
Qed.

Lemma X17_second_colon_witness :
  count_of 4300 ("contigs" ++ String ":" (" 5" ++ String ":" "7"))
    = Py.int 4300 " 5" /\
  ~ two_pieces ("contigs" ++ String ":" (" 5" ++ String ":" "7")) /\
  forall r, fst (fst (scan_lines 4300
                        ["contigs" ++ String ":" (" 5" ++ String ":" "7")] r))
            = Raise ValueError.
Proof.
  apply (X17_second_colon 4300 "contigs" " 5" "7").
  - intros c Hc. cbn in Hc.
    repeat (destruct Hc as [<-|Hc]; [discriminate|]). destruct Hc.
  - intros c Hc. cbn in Hc.
    repeat (destruct Hc as [<-|Hc]; [discriminate|]). destruct Hc.
Defined.
